(** * CodeCollab front end: the realtime session layer

    A shallow embedding of the client's socket layer and of the
    components that consume it:

    - [src/services/socket.js]      the [SocketService] singleton
    - [src/hooks/useSocket.js]      [useSocket], [useSessionSocket],
                                    [useCodeEditorSocket]
    - [src/components/Session/CodeEditor.js]   the remote-change callback,
                                    the content handler, the template effect
    - [src/components/Session/ChatWindow.js]   history and typing effects
    - [src/pages/Session.js]        the page's [handleCodeChange]

    JavaScript objects become records, [Map]s become [gmap]s, a [Set] of
    function objects becomes a duplicate-free list in insertion order
    (the order [Set.prototype.forEach] visits), mutation becomes explicit
    state passing and a thrown exception becomes the [Thrown] outcome. *)

From stdpp Require Import base strings list gmap.

Local Open Scope string_scope.
Local Open Scope list_scope.
Local Open Scope stdpp_scope.

(** ** Wire data *)

(** The [user] object handed to [connect] and [joinSession]. *)
Record user := User {
  user_id : string;
  username : string;
  profile : string;
}.

Record position := Position { line : Z; column : Z }.

(** Payloads of the messages the client writes to the socket. *)
Inductive payload :=
| PAuthenticate (id uname prof : string)
| PJoinSession (sessionId : string) (u : user)
| PLeaveSession (sessionId : string)
| PCodeChange (sessionId code operation : string) (timestamp : Z)
| PCursorPosition (sessionId : string) (pos : position) (timestamp : Z)
| PExecuteCode (sessionId code language input : string) (timestamp : Z)
| PChatMessage (sessionId message : string) (timestamp : Z).

(** A JavaScript function object, known by its identity. *)
Definition callback := nat.

(** What the service asks of the socket.io socket.  The socket is a
    library object: the embedding records the calls made on it and keeps
    its [connected] flag, and gives the calls no further meaning. *)
Inductive sockcall :=
| SockOn (eventName : string) (cb : callback)
| SockOff (eventName : string) (cb : callback)
| SockRemoveAllListeners (eventName : string)
| SockEmit (eventName : string) (p : payload)
| SockConnect
| SockDisconnect.

(** The options object of [io(serverUrl, {...})]. *)
Record io_options := IoOptions {
  timeout : Z;
  forceNew : bool;
  reconnection : bool;
  reconnectionDelay : Z;
  reconnectionAttempts : nat;
}.

Record Socket := MkSocket {
  connected : bool;
  options : io_options;
  calls : list sockcall;
}.

Definition sock_call (c : sockcall) (sk : Socket) : Socket :=
  {| connected := connected sk; options := options sk;
     calls := calls sk ++ [c] |}.

(** The messages written to the wire, oldest first. *)
Definition emitted (sk : Socket) : list (string * payload) :=
  omap (λ c, match c with SockEmit e p => Some (e, p) | _ => None end)
       (calls sk).

(** ** [SocketService] (src/services/socket.js) *)

Module SocketService.

Record t := Mk {
  socket : option Socket;
  isConnected : bool;
  eventListeners : gmap string (list callback);
  reconnectAttempts : nat;
  maxReconnectAttempts : nat;
  reconnectDelay : Z;
}.

(** [constructor()] *)
Definition new : t :=
  {| socket := None; isConnected := false; eventListeners := ∅;
     reconnectAttempts := 0; maxReconnectAttempts := 5;
     reconnectDelay := 1000 |}.

Definition with_socket (o : option Socket) (s : t) : t :=
  {| socket := o; isConnected := isConnected s;
     eventListeners := eventListeners s;
     reconnectAttempts := reconnectAttempts s;
     maxReconnectAttempts := maxReconnectAttempts s;
     reconnectDelay := reconnectDelay s |}.

Definition with_listeners (m : gmap string (list callback)) (s : t) : t :=
  {| socket := socket s; isConnected := isConnected s;
     eventListeners := m;
     reconnectAttempts := reconnectAttempts s;
     maxReconnectAttempts := maxReconnectAttempts s;
     reconnectDelay := reconnectDelay s |}.

Definition with_isConnected (b : bool) (s : t) : t :=
  {| socket := socket s; isConnected := b;
     eventListeners := eventListeners s;
     reconnectAttempts := reconnectAttempts s;
     maxReconnectAttempts := maxReconnectAttempts s;
     reconnectDelay := reconnectDelay s |}.

Definition with_attempts (n : nat) (s : t) : t :=
  {| socket := socket s; isConnected := isConnected s;
     eventListeners := eventListeners s;
     reconnectAttempts := n;
     maxReconnectAttempts := maxReconnectAttempts s;
     reconnectDelay := reconnectDelay s |}.

(** [this.socket?.connected] *)
Definition socket_connected (s : t) : bool :=
  match socket s with
  | Some sk => connected sk
  | None => false
  end.

(** [connect(user)]: an already connected socket is reused, otherwise a
    new one is created with the reconnection options of the service.
    The handlers that [setupEventListeners] installs on the new socket
    are the cases of [Transport.handle] below. *)
Definition connect (s : t) : t :=
  if socket_connected s then s
  else
    with_socket
      (Some {| connected := false;
               options := {| timeout := 20000; forceNew := true;
                             reconnection := true;
                             reconnectionDelay := reconnectDelay s;
                             reconnectionAttempts := maxReconnectAttempts s |};
               calls := [] |})
      s.

(** [this.socket.emit(name, payload)] behind the guard
    [if (!this.socket?.connected) return;] that every sender opens with. *)
Definition send (eventName : string) (p : payload) (s : t) : t :=
  match socket s with
  | Some sk =>
      if connected sk
      then with_socket (Some (sock_call (SockEmit eventName p) sk)) s
      else s
  | None => s
  end.

(** [authenticate(user)] *)
Definition authenticate (u : user) (s : t) : t :=
  send "authenticate" (PAuthenticate (user_id u) (username u) (profile u)) s.

(** [joinSession(sessionId, user)] returns [false] when nothing was sent. *)
Definition joinSession (sessionId : string) (u : user) (s : t) : bool * t :=
  if socket_connected s
  then (true,
        send "join-session"
             (PJoinSession sessionId
                (User (user_id u) (username u) (profile u))) s)
  else (false, s).

(** [leaveSession(sessionId)] *)
Definition leaveSession (sessionId : string) (s : t) : t :=
  send "leave-session" (PLeaveSession sessionId) s.

(** [sendCodeChange(sessionId, code, operation)]; [now] is [Date.now()]. *)
Definition sendCodeChange (now : Z) (sessionId code operation : string)
    (s : t) : t :=
  send "code-change" (PCodeChange sessionId code operation now) s.

(** [sendCursorPosition(sessionId, position)] *)
Definition sendCursorPosition (now : Z) (sessionId : string) (pos : position)
    (s : t) : t :=
  send "cursor-position" (PCursorPosition sessionId pos now) s.

(** [executeCode(sessionId, code, language, input = '')] *)
Definition executeCode (now : Z) (sessionId code language input : string)
    (s : t) : t :=
  send "execute-code" (PExecuteCode sessionId code language input now) s.

(** [sendChatMessage(sessionId, message)] *)
Definition sendChatMessage (now : Z) (sessionId message : string) (s : t) : t :=
  send "chat-message" (PChatMessage sessionId message now) s.

(** *** The listener registry *)

(** [Set.prototype.add]: an element already present keeps its place. *)
Definition set_add (cb : callback) (l : list callback) : list callback :=
  if decide (cb ∈ l) then l else l ++ [cb].

(** [Set.prototype.delete] *)
Definition set_delete (cb : callback) (l : list callback) : list callback :=
  filter (λ x, x ≠ cb) l.

(** [on(eventName, callback)] *)
Definition on (eventName : string) (cb : callback) (s : t) : t :=
  match socket s with
  | None => s
  | Some sk =>
      let sk' := sock_call (SockOn eventName cb) sk in
      let m := eventListeners s in
      let m1 := if decide (is_Some (m !! eventName)) then m
                else <[eventName := []]> m in
      with_listeners (alter (set_add cb) eventName m1)
                     (with_socket (Some sk') s)
  end.

(** [off(eventName, callback)] *)
Definition off (eventName : string) (cb : callback) (s : t) : t :=
  match socket s with
  | None => s
  | Some sk =>
      let sk' := sock_call (SockOff eventName cb) sk in
      let m := eventListeners s in
      let m1 := if decide (is_Some (m !! eventName))
                then alter (set_delete cb) eventName m
                else m in
      with_listeners m1 (with_socket (Some sk') s)
  end.

(** [removeAllListeners(eventName)] *)
Definition removeAllListeners (eventName : string) (s : t) : t :=
  match socket s with
  | None => s
  | Some sk =>
      with_listeners (delete eventName (eventListeners s))
        (with_socket (Some (sock_call (SockRemoveAllListeners eventName) sk)) s)
  end.

(** [disconnect()] *)
Definition disconnect (s : t) : t :=
  match socket s with
  | None => s
  | Some _ =>
      with_isConnected false (with_socket None (with_listeners ∅ s))
  end.

(** The messages the service has written to its socket so far. *)
Definition sent (s : t) : list (string * payload) :=
  match socket s with
  | Some sk => emitted sk
  | None => []
  end.

(** The callbacks stored for an event, in the order [forEach] visits. *)
Definition listeners (eventName : string) (s : t) : list callback :=
  default [] (eventListeners s !! eventName).


End SocketService.

(** ** Delivery of the service's own events ([SocketService.emit]) *)

(** How a JavaScript call ends: it returns, or it throws.  Either way the
    state it has reached is kept. *)
Inductive outcome (A : Type) :=
| Returned (a : A)
| Thrown (err : string) (a : A).
Arguments Returned {A} a.
Arguments Thrown {A} err a.

Definition final {A} (o : outcome A) : A :=
  match o with Returned a | Thrown _ a => a end.

Definition returns {A} (o : outcome A) : bool :=
  match o with Returned _ => true | Thrown _ _ => false end.

Module Dispatcher.
Section Dispatcher.

(** [Ui] is the state the subscribers act on (React state, refs),
    [Data] the value passed to them, and [body] gives each function
    object its code.  Subscribers act on [Ui] only: as the listeners of
    this repository, they do not call [on] or [off] while an event is
    being delivered. *)
Context {Ui Data : Type}.
Variable body : callback → Data → Ui → outcome Ui.

Record World := MkWorld {
  svc : SocketService.t;
  ui : Ui;
  invoked : list (callback * Data);   (* every call made, oldest first *)
  console_error : list string;        (* console.error lines *)
  toasts : list string;               (* toast.error / toast.success *)
}.

Definition with_svc (s : SocketService.t) (w : World) : World :=
  {| svc := s; ui := ui w; invoked := invoked w;
     console_error := console_error w; toasts := toasts w |}.

Definition toast (msg : string) (w : World) : World :=
  {| svc := svc w; ui := ui w; invoked := invoked w;
     console_error := console_error w; toasts := toasts w ++ [msg] |}.

Definition log_error (msg : string) (w : World) : World :=
  {| svc := svc w; ui := ui w; invoked := invoked w;
     console_error := console_error w ++ [msg]; toasts := toasts w |}.

(** [callback(data)] *)
Definition call (cb : callback) (d : Data) (w : World) : outcome World :=
  let w1 := {| svc := svc w; ui := ui w; invoked := invoked w ++ [(cb, d)];
               console_error := console_error w; toasts := toasts w |} in
  match body cb d (ui w1) with
  | Returned u =>
      Returned {| svc := svc w1; ui := u; invoked := invoked w1;
                  console_error := console_error w1; toasts := toasts w1 |}
  | Thrown err u =>
      Thrown err {| svc := svc w1; ui := u; invoked := invoked w1;
                    console_error := console_error w1; toasts := toasts w1 |}
  end.

(** [try { callback(data); } catch (error) { console.error(...); }] *)
Definition guarded (eventName : string) (d : Data) (cb : callback)
    (w : World) : outcome World :=
  match call cb d w with
  | Returned w' => Returned w'
  | Thrown err w' =>
      Returned (log_error ("Error in " +:+ eventName +:+ " listener:") w')
  end.

(** [Set.prototype.forEach]: an exception that escapes the visitor ends
    the iteration. *)
Fixpoint forEach (f : callback → World → outcome World)
    (l : list callback) (w : World) : outcome World :=
  match l with
  | [] => Returned w
  | cb :: l' =>
      match f cb w with
      | Returned w' => forEach f l' w'
      | Thrown err w' => Thrown err w'
      end
  end.

(** [emit(eventName, data)] *)
Definition emit (eventName : string) (d : Data) (w : World) : outcome World :=
  match SocketService.eventListeners (svc w) !! eventName with
  | Some l => forEach (guarded eventName d) l w
  | None => Returned w
  end.

(** A call of [on] or [off], and a sequence of them run on the service. *)
Inductive reg_op :=
| On (eventName : string) (cb : callback)
| Off (eventName : string) (cb : callback).

Definition run_op (s : SocketService.t) (o : reg_op) : SocketService.t :=
  match o with
  | On e cb => SocketService.on e cb s
  | Off e cb => SocketService.off e cb s
  end.

Definition run_ops (ops : list reg_op) (s : SocketService.t)
    : SocketService.t :=
  foldl run_op s ops.



(** The specification's reading of "currently registered": going
    through the calls in order, an [on] of the pair registers it and an
    [off] of the pair revokes it. *)
Definition reg_step (eventName : string) (cb : callback) (r : bool)
    (o : reg_op) : bool :=
  match o with
  | On e c => if decide (e = eventName ∧ c = cb) then true else r
  | Off e c => if decide (e = eventName ∧ c = cb) then false else r
  end.

Definition registered (ops : list reg_op) (eventName : string)
    (cb : callback) : bool :=
  foldl (reg_step eventName cb) false ops.



End Dispatcher.
End Dispatcher.


(** ** Transport events and the service's handlers
    ([SocketService.setupEventListeners]) *)

(** Sequencing: what follows a call runs only if the call returned. *)
Definition and_then {A} (o : outcome A) (k : A → outcome A) : outcome A :=
  match o with
  | Returned a => k a
  | Thrown err a => Thrown err a
  end.

(** The value a service event carries to its subscribers. *)
Inductive cdata :=
| NoData
| Reason (r : string)
| Message (m : string)
| Attempts (n : nat).

(** Events the socket.io socket raises on the client. *)
Inductive transport_event :=
| TConnect
| TDisconnect (reason : string)
| TConnectError (err : string)
| TReconnect (attemptNumber : nat)
| TReconnectFailed
| TAuthSuccess
| TAuthError (message : string)
| TError (message : string).

Module Transport.
Section Transport.
Import SocketService Dispatcher.

Context {Ui : Type}.
Variable body : callback → cdata → Ui → outcome Ui.
(** The [user] the handlers close over. *)
Variable the_user : option user.

Definition World : Type := @Dispatcher.World Ui cdata.

(** The socket's own flag follows the transport before any handler runs. *)
Definition socket_follows (ev : transport_event) (s : t) : t :=
  match socket s, ev with
  | Some sk, TConnect =>
      with_socket (Some {| connected := true; options := options sk;
                           calls := calls sk |}) s
  | Some sk, TDisconnect _ =>
      with_socket (Some {| connected := false; options := options sk;
                           calls := calls sk |}) s
  | _, _ => s
  end.

(** [a || b] on strings: the empty string is falsy. *)
Definition or_else (a b : string) : string :=
  if decide (a = "") then b else a.

Definition handle (ev : transport_event) (w0 : World) : outcome World :=
  let w := with_svc (socket_follows ev (svc w0)) w0 in
  match ev with
  | TConnect =>
      let s1 := with_attempts 0 (with_isConnected true (svc w)) in
      let s2 := match the_user with
                | Some u => authenticate u s1
                | None => s1
                end in
      emit body "custom:connected" NoData (with_svc s2 w)
  | TDisconnect reason =>
      let w1 := with_svc (with_isConnected false (svc w)) w in
      and_then (emit body "custom:disconnected" (Reason reason) w1) (λ w2,
        if decide (reason = "io server disconnect")
        then Returned
               (with_svc
                  (with_socket (sock_call SockConnect <$> socket (svc w2))
                               (svc w2)) w2)
        else Returned w2)
  | TConnectError err =>
      let n := S (reconnectAttempts (svc w)) in
      let w1 := with_svc (with_attempts n (svc w)) w in
      let w2 := if decide (maxReconnectAttempts (svc w1) ≤ n)%nat
                then toast
                       "Unable to connect to server. Please refresh the page."
                       w1
                else w1 in
      emit body "custom:connect_error" (Message err) w2
  | TReconnect attemptNumber =>
      emit body "custom:reconnected" (Attempts attemptNumber)
           (toast "Connection restored" w)
  | TReconnectFailed =>
      emit body "custom:reconnect_failed" NoData
           (toast "Failed to reconnect. Please refresh the page." w)
  | TAuthSuccess =>
      emit body "custom:auth-success" NoData w
  | TAuthError message =>
      emit body "custom:auth-error" (Message message)
           (toast (or_else message "Authentication failed") w)
  | TError message =>
      emit body "custom:error" (Message message)
           (toast (or_else message "Connection error occurred") w)
  end.

(** A run of transport events, each handled to completion. *)
Definition run (evs : list transport_event) (w : World) : World :=
  foldl (λ w ev, final (handle ev w)) w evs.

End Transport.
End Transport.

(** ** [useSocket] (src/hooks/useSocket.js) *)

Module UseSocket.
Import SocketService Dispatcher.

Record state := Mk {
  connectionStatus : string;
  isConnecting : bool;
  socketRef : bool;                 (* socketRef.current is set *)
  hook_toasts : list string;
}.

(** [useState('disconnected')], [useState(false)], [useRef(null)] *)
Definition init : state :=
  {| connectionStatus := "disconnected"; isConnecting := false;
     socketRef := false; hook_toasts := [] |}.

Definition setConnectionStatus (v : string) (h : state) : state :=
  {| connectionStatus := v; isConnecting := isConnecting h;
     socketRef := socketRef h; hook_toasts := hook_toasts h |}.

Definition setIsConnecting (b : bool) (h : state) : state :=
  {| connectionStatus := connectionStatus h; isConnecting := b;
     socketRef := socketRef h; hook_toasts := hook_toasts h |}.

Definition setSocketRef (b : bool) (h : state) : state :=
  {| connectionStatus := connectionStatus h; isConnecting := isConnecting h;
     socketRef := b; hook_toasts := hook_toasts h |}.

Definition hook_toast (msg : string) (h : state) : state :=
  {| connectionStatus := connectionStatus h; isConnecting := isConnecting h;
     socketRef := socketRef h; hook_toasts := hook_toasts h ++ [msg] |}.

(** [isConnected: connectionStatus === 'connected'] *)
Definition hookIsConnected (h : state) : bool :=
  bool_decide (connectionStatus h = "connected").

(** The six closures of [setupConnectionListeners]. *)
Definition cb_connected : callback := 0.
Definition cb_disconnected : callback := 1.
Definition cb_reconnected : callback := 2.
Definition cb_connect_error : callback := 3.
Definition cb_auth_success : callback := 4.
Definition cb_auth_error : callback := 5.

Definition body (cb : callback) (d : cdata) (h : state) : outcome state :=
  match cb with
  | 0 => Returned (setConnectionStatus "connected" h)
  | 1 => Returned (setConnectionStatus "disconnected" h)
  | 2 => Returned (hook_toast "Real-time connection restored"
                     (setConnectionStatus "connected" h))
  | 3 => Returned (setConnectionStatus "error" h)
  | 4 => Returned h
  | 5 => Returned (setConnectionStatus "auth-error" h)
  | _ => Returned h
  end.

Definition World : Type := @Dispatcher.World state cdata.

(** [setupConnectionListeners()] *)
Definition setupConnectionListeners (w : World) : World :=
  if socketRef (ui w) then
    with_svc
      (on "custom:auth-error" cb_auth_error
      (on "custom:auth-success" cb_auth_success
      (on "custom:connect_error" cb_connect_error
      (on "custom:reconnected" cb_reconnected
      (on "custom:disconnected" cb_disconnected
      (on "custom:connected" cb_connected (svc w)))))))
      w
  else w.

Definition with_ui (h : state) (w : World) : World :=
  {| svc := svc w; ui := h; invoked := invoked w;
     console_error := console_error w; toasts := toasts w |}.

(** [connectSocket()], for an authenticated [user]. *)
Definition connectSocket (w : World) : World :=
  if isConnecting (ui w) then w
  else
    let w1 := with_ui (setConnectionStatus "connecting"
                         (setIsConnecting true (ui w))) w in
    let w2 := with_svc (connect (svc w1)) w1 in
    let w3 := with_ui (setSocketRef true (ui w2)) w2 in
    let w4 := setupConnectionListeners w3 in
    with_ui (setIsConnecting false (ui w4)) w4.

(** The page after the hook has mounted for an authenticated user. *)
Definition boot : World :=
  connectSocket
    {| svc := SocketService.new; ui := init; invoked := [];
       console_error := []; toasts := [] |}.

(** The senders the hook exports: each forwards to the service when
    [socketRef.current] is set. *)
Definition leaveSession (sessionId : string) (w : World) : World :=
  if socketRef (ui w)
  then with_svc (SocketService.leaveSession sessionId (svc w)) w
  else w.

Definition sendCodeChange (now : Z) (sessionId code operation : string)
    (w : World) : World :=
  if socketRef (ui w)
  then with_svc (SocketService.sendCodeChange now sessionId code operation
                   (svc w)) w
  else w.

Definition sendCursorPosition (now : Z) (sessionId : string) (pos : position)
    (w : World) : World :=
  if socketRef (ui w)
  then with_svc (SocketService.sendCursorPosition now sessionId pos (svc w)) w
  else w.

Definition executeCode (now : Z) (sessionId code language input : string)
    (w : World) : World :=
  if socketRef (ui w)
  then with_svc (SocketService.executeCode now sessionId code language input
                   (svc w)) w
  else w.

Definition sendChatMessage (now : Z) (sessionId message : string)
    (w : World) : World :=
  if socketRef (ui w)
  then with_svc (SocketService.sendChatMessage now sessionId message (svc w)) w
  else w.

(** [joinSession(sessionId)] of the hook, for the hook's [user]. *)
Definition joinSession (u : option user) (sessionId : string) (w : World)
    : bool * World :=
  match socketRef (ui w), u with
  | true, Some usr =>
      let r := SocketService.joinSession sessionId usr (svc w) in
      (r.1, with_svc r.2 w)
  | _, _ => (false, w)
  end.

(** The join effect of [useSessionSocket], run when [sessionId] or
    [isConnected] changes ... *)
Definition joinEffect (u : option user) (sessionId : string) (w : World)
    : World :=
  if negb (bool_decide (sessionId = "")) && hookIsConnected (ui w) then
    let r := joinSession u sessionId w in
    if r.1 then r.2
    else with_ui (hook_toast "Failed to join session" (ui r.2)) r.2
  else w.

(** ... and its cleanup, run before the next run of the effect and on
    unmount. *)
Definition joinCleanup (sessionId : string) (w : World) : World :=
  if negb (bool_decide (sessionId = "")) then leaveSession sessionId w
  else w.

End UseSocket.

(** ** Inbound session events *)

(** A JSON value as far as the reducers look into it. *)
Inductive jsvalue :=
| JNull
| JString (s : string)
| JNumber (z : Z)
| JObject (fields : list (string * string)).

Definition populated (v : jsvalue) : bool :=
  match v with JNull => false | _ => true end.

Record participant := Participant {
  socketId : string;
  p_username : string;
  p_userId : string;
  role : string;
}.

Record chat_message := ChatMsg {
  msg_id : Z;
  msg_username : string;
  content : string;
  msg_timestamp : Z;
}.

Record cursor := Cursor {
  cur_username : string;
  cur_position : position;
  color : string;
}.

Inductive inbound :=
| CodeSync (code : string)
| CodeChange (code operation from : string)
| SessionParticipants (participantsList : list participant)
| UserJoined (u : participant)
| UserLeft (sid : string) (u : participant)
| CursorUpdate (sid uname : string) (pos : position) (col : string)
| TypingStatusUpdate (uname : string) (isTyping : bool)
| ExecutionStarted (uname : string)
| ExecutionResult (res : jsvalue) (by_user : string)
| ExecutionError (err : jsvalue)
| ChatMessage (m : chat_message).

(** ** [useSessionSocket] (src/hooks/useSocket.js) *)

Module SessionSocket.

(** The execution slot; [executedBy] is [None] when the key is absent. *)
Record execution := Execution {
  isRunning : bool;
  result : jsvalue;
  error : jsvalue;
  executedBy : option string;
}.

Record state := Mk {
  participants : list participant;
  chatMessages : list chat_message;
  codeState : string;
  cursors : gmap string cursor;
  typingUsers : gset string;
  executionState : execution;
}.

(** The [useState] initial values. *)
Definition init : state :=
  {| participants := []; chatMessages := []; codeState := "";
     cursors := ∅; typingUsers := ∅;
     executionState := {| isRunning := false; result := JNull;
                          error := JNull; executedBy := None |} |}.

Definition setCodeState (c : string) (st : state) : state :=
  {| participants := participants st; chatMessages := chatMessages st;
     codeState := c; cursors := cursors st; typingUsers := typingUsers st;
     executionState := executionState st |}.

Definition setParticipants (f : list participant → list participant)
    (st : state) : state :=
  {| participants := f (participants st); chatMessages := chatMessages st;
     codeState := codeState st; cursors := cursors st;
     typingUsers := typingUsers st; executionState := executionState st |}.

Definition setChatMessages (f : list chat_message → list chat_message)
    (st : state) : state :=
  {| participants := participants st; chatMessages := f (chatMessages st);
     codeState := codeState st; cursors := cursors st;
     typingUsers := typingUsers st; executionState := executionState st |}.

Definition setCursors (f : gmap string cursor → gmap string cursor)
    (st : state) : state :=
  {| participants := participants st; chatMessages := chatMessages st;
     codeState := codeState st; cursors := f (cursors st);
     typingUsers := typingUsers st; executionState := executionState st |}.

Definition setTypingUsers (f : gset string → gset string) (st : state)
    : state :=
  {| participants := participants st; chatMessages := chatMessages st;
     codeState := codeState st; cursors := cursors st;
     typingUsers := f (typingUsers st);
     executionState := executionState st |}.

Definition setExecutionState (e : execution) (st : state) : state :=
  {| participants := participants st; chatMessages := chatMessages st;
     codeState := codeState st; cursors := cursors st;
     typingUsers := typingUsers st; executionState := e |}.

(** The listeners the hook registers, one case per event name. *)
Definition listener (ev : inbound) (st : state) : state :=
  match ev with
  | CodeSync code => setCodeState code st
  | CodeChange code _ _ => setCodeState code st
  | SessionParticipants participantsList =>
      setParticipants (λ _, participantsList) st
  | UserJoined u => setParticipants (λ prev, prev ++ [u]) st
  | UserLeft sid _ =>
      setParticipants (λ prev, filter (λ p, socketId p ≠ sid) prev) st
  | CursorUpdate sid uname pos col =>
      setCursors (λ prev, <[sid := Cursor uname pos col]> prev) st
  | TypingStatusUpdate uname isTyping =>
      setTypingUsers
        (λ prev, if isTyping then prev ∪ {[uname]} else prev ∖ {[uname]}) st
  | ExecutionStarted uname =>
      setExecutionState
        {| isRunning := true; result := JNull; error := JNull;
           executedBy := Some uname |} st
  | ExecutionResult res by_user =>
      setExecutionState
        {| isRunning := false; result := res; error := JNull;
           executedBy := Some by_user |} st
  | ExecutionError err =>
      setExecutionState
        {| isRunning := false; result := JNull; error := err;
           executedBy := None |} st
  | ChatMessage m => setChatMessages (λ prev, prev ++ [m]) st
  end.

Definition run (evs : list inbound) (st : state) : state :=
  foldl (λ st ev, listener ev st) st evs.

(** The connection ids of a roster, in roster order. *)
Definition connection_ids (l : list participant) : list string :=
  socketId <$> l.

End SessionSocket.

(** ** [CodeEditor] with [useCodeEditorSocket]
    (src/components/Session/CodeEditor.js, src/hooks/useSocket.js) *)

Module CodeEditor.

Record state := Mk {
  editorRef : option string;      (* the mounted editor's text, if mounted *)
  code : string;                  (* the [code] React state *)
  suppressNextChangeRef : bool;
  isTyping : bool;
  lastChangeRef : bool;           (* the 1000 ms typing timer is pending *)
  debounceTimeoutRef : option (string * string);
                                  (* the 300 ms send is pending: code, op *)
  readOnly : bool;
  isConnected : bool;             (* the hook's [isConnected], as the
                                     handlers set at mount hold it *)
  sessionId : string;
  notified : list string;         (* the calls made of the [onCodeChange]
                                     prop, oldest first; the page answers
                                     them in [Client.handleCodeChange] *)
}.

Definition init (sid : string) (ro conn : bool) : state :=
  {| editorRef := None; code := ""; suppressNextChangeRef := false;
     isTyping := false; lastChangeRef := false; debounceTimeoutRef := None;
     readOnly := ro; isConnected := conn; sessionId := sid; notified := [] |}.

Definition set_editor (v : option string) (st : state) : state :=
  {| editorRef := v; code := code st;
     suppressNextChangeRef := suppressNextChangeRef st;
     isTyping := isTyping st; lastChangeRef := lastChangeRef st;
     debounceTimeoutRef := debounceTimeoutRef st; readOnly := readOnly st;
     isConnected := isConnected st; sessionId := sessionId st;
     notified := notified st |}.

Definition setCode (c : string) (st : state) : state :=
  {| editorRef := editorRef st; code := c;
     suppressNextChangeRef := suppressNextChangeRef st;
     isTyping := isTyping st; lastChangeRef := lastChangeRef st;
     debounceTimeoutRef := debounceTimeoutRef st; readOnly := readOnly st;
     isConnected := isConnected st; sessionId := sessionId st;
     notified := notified st |}.

Definition set_suppress (b : bool) (st : state) : state :=
  {| editorRef := editorRef st; code := code st;
     suppressNextChangeRef := b;
     isTyping := isTyping st; lastChangeRef := lastChangeRef st;
     debounceTimeoutRef := debounceTimeoutRef st; readOnly := readOnly st;
     isConnected := isConnected st; sessionId := sessionId st;
     notified := notified st |}.

Definition set_typing (b timer : bool) (st : state) : state :=
  {| editorRef := editorRef st; code := code st;
     suppressNextChangeRef := suppressNextChangeRef st;
     isTyping := b; lastChangeRef := timer;
     debounceTimeoutRef := debounceTimeoutRef st; readOnly := readOnly st;
     isConnected := isConnected st; sessionId := sessionId st;
     notified := notified st |}.

Definition set_debounce (d : option (string * string)) (st : state) : state :=
  {| editorRef := editorRef st; code := code st;
     suppressNextChangeRef := suppressNextChangeRef st;
     isTyping := isTyping st; lastChangeRef := lastChangeRef st;
     debounceTimeoutRef := d; readOnly := readOnly st;
     isConnected := isConnected st; sessionId := sessionId st;
     notified := notified st |}.

(** [onCodeChange?.(newCode)]: the call of the prop is recorded. *)
Definition notify (c : string) (st : state) : state :=
  {| editorRef := editorRef st; code := code st;
     suppressNextChangeRef := suppressNextChangeRef st;
     isTyping := isTyping st; lastChangeRef := lastChangeRef st;
     debounceTimeoutRef := debounceTimeoutRef st; readOnly := readOnly st;
     isConnected := isConnected st; sessionId := sessionId st;
     notified := notified st ++ [c] |}.

(** [useCodeEditorSocket.sendCodeChange(code, operation)]: the send is
    put behind a 300 ms timer that replaces any pending one. *)
Definition sendCodeChange (c operation : string) (st : state) : state :=
  if negb (isConnected st) || bool_decide (sessionId st = "") then st
  else set_debounce (Some (c, operation)) st.

(** The [onDidChangeModelContent] handler.  The operation it hands to
    [sendCodeChange] is the object [{type: 'edit', changes, timestamp}],
    written here as its type. *)
Definition onDidChangeModelContent (st : state) : state :=
  if suppressNextChangeRef st then st
  else
    match editorRef st with
    | None => st
    | Some newCode =>
        let st1 := setCode newCode st in
        let st2 := set_typing true true st1 in
        let st3 := if negb (readOnly st2) && isConnected st2
                   then sendCodeChange newCode "edit" st2
                   else st2 in
        notify newCode st3
    end.

(** [editor.setValue(v)]: the model changes and the editor raises its
    content-change event before the call returns. *)
Definition setValue (v : string) (st : state) : state :=
  match editorRef st with
  | None => st
  | Some _ => onDidChangeModelContent (set_editor (Some v) st)
  end.

(** The user types: the model changes and the same event is raised. *)
Definition userEdit (v : string) (st : state) : state :=
  setValue v st.

(** [handleEditorDidMount] sets the template as the initial text. *)
Definition mount (template : string) (st : state) : state :=
  setCode template (setValue template (set_editor (Some "") st)).

(** The effect [if (isEditorReady && !code) { setCode(template);
    editorRef.current?.setValue(template) }] with dependencies
    [isEditorReady] and [code] (the language does not change while the
    page is shown): it runs after a render in which one of them differs
    from the render [before], and its [setValue] raises the content-change
    event like any other. *)
Definition templateEffect (template : string) (before st : state) : state :=
  if bool_decide (is_Some (editorRef st)) && bool_decide (code st = "")
     && (negb (bool_decide (is_Some (editorRef before)))
         || negb (bool_decide (code before = code st)))
  then setValue template (setCode template st)
  else st.

(** The callback given to [useCodeEditorSocket]:
    [(newCode, operation, from) => { if (from !== 'self' &&
    editorRef.current && !suppressNextChangeRef.current) {...} }] *)
Definition onCodeChange (newCode operation from : string) (st : state)
    : state :=
  if bool_decide (from ≠ "self") && bool_decide (is_Some (editorRef st))
     && negb (suppressNextChangeRef st)
  then
    let st1 := set_suppress true st in
    let st2 := setValue newCode st1 in
    let st3 := setCode newCode st2 in
    set_suppress false st3
  else st.

(** The two listeners of [useCodeEditorSocket]. *)
Definition listener (ev : inbound) (st : state) : state :=
  match ev with
  | CodeChange c operation from => onCodeChange c operation from st
  | CodeSync c => onCodeChange c "sync" "server" st
  | _ => st
  end.

(** The 1000 ms typing timer of the content-change handler fires. *)
Definition lastChangeFired (st : state) : state :=
  if lastChangeRef st then set_typing false false st else st.

End CodeEditor.

(** ** [ChatWindow] (src/components/Session/ChatWindow.js) *)

Module ChatWindow.

Record state := Mk {
  messageHistory : list chat_message;
  isTyping : bool;                (* the local user is typing *)
  typingTimeoutRef : bool;        (* the 3000 ms timer is pending *)
  typingUsers : gset string;      (* local state, never written *)
  isScrolledUp : bool;
  unreadCount : nat;
}.

Definition init : state :=
  {| messageHistory := []; isTyping := false; typingTimeoutRef := false;
     typingUsers := ∅; isScrolledUp := false; unreadCount := 0 |}.

(** [messageHistory.some(existing => existing.id === msg.id)] *)
Definition known (history : list chat_message) (msg : chat_message) : bool :=
  existsb (λ existing, bool_decide (msg_id existing = msg_id msg)) history.

(** The "update message history" effect, run with the [messages] prop. *)
Definition historyEffect (messages : list chat_message) (st : state) : state :=
  if bool_decide (0 < length messages)%nat then
    let newMessages := filter (λ msg, known (messageHistory st) msg = false)
                              messages in
    if bool_decide (0 < length newMessages)%nat then
      {| messageHistory := messageHistory st ++ newMessages;
         isTyping := isTyping st; typingTimeoutRef := typingTimeoutRef st;
         typingUsers := typingUsers st; isScrolledUp := isScrolledUp st;
         unreadCount := if isScrolledUp st
                        then unreadCount st + length newMessages
                        else unreadCount st |}
    else st
  else st.

Definition setIsTyping (b : bool) (st : state) : state :=
  {| messageHistory := messageHistory st; isTyping := b;
     typingTimeoutRef := typingTimeoutRef st;
     typingUsers := typingUsers st; isScrolledUp := isScrolledUp st;
     unreadCount := unreadCount st |}.

Definition set_timer (b : bool) (st : state) : state :=
  {| messageHistory := messageHistory st; isTyping := isTyping st;
     typingTimeoutRef := b;
     typingUsers := typingUsers st; isScrolledUp := isScrolledUp st;
     unreadCount := unreadCount st |}.

(** The "typing indicators" effect: while the local [isTyping] flag is
    set, a 3000 ms timer is (re)started. *)
Definition typingEffect (st : state) : state :=
  if isTyping st then set_timer true st else st.

(** [handleInputChange]: a non-blank input raises the local flag. *)
Definition handleInputChange (value : string) (st : state) : state :=
  if negb (isTyping st) && negb (bool_decide (value = ""))
  then typingEffect (setIsTyping true st)
  else st.

(** The 3000 ms timer fires: [setIsTyping(false)]. *)
Definition typingTimeoutFired (st : state) : state :=
  if typingTimeoutRef st then set_timer false (setIsTyping false st) else st.

(** What is rendered: [[...messageHistory, ...messages]], before the sort
    by timestamp. *)
Definition allMessages (messages : list chat_message) (st : state)
    : list chat_message :=
  messageHistory st ++ messages.

End ChatWindow.

(** ** The session page: the hooks and components side by side
    (src/pages/Session.js) *)

Module Client.

Record t := Mk {
  world : UseSocket.World;            (* the service and [useSocket] *)
  sess : SessionSocket.state;         (* [useSessionSocket] *)
  editor : CodeEditor.state;          (* [CodeEditor] *)
  chat : option ChatWindow.state;     (* [ChatWindow]; [None] while
                                         [showChat] is false *)
  template : string;                  (* [getLanguageTemplate(language)]
                                         of the session's language *)
  pageConnected : bool;               (* the page's [isConnected], as the
                                         [handleCodeChange] given to the
                                         editor holds it *)
  clock : Z;                          (* what [Date.now()] returns *)
}.

(** The local timers of the page. *)
Inductive timer :=
| ChatTypingTimeout                   (* ChatWindow, 3000 ms *)
| EditorTypingTimeout                 (* CodeEditor, 1000 ms *)
| CodeChangeDebounce (now : Z).       (* useCodeEditorSocket, 300 ms *)

Inductive action :=
| Inbound (ev : inbound)              (* a session event arrives *)
| Timer (tm : timer)                  (* a local timer fires *)
| Edit (v : string)                   (* the user edits the document *)
| ChatInput (v : string)              (* the user types in the chat box *)
| ToggleChat                          (* [setShowChat(!showChat)] *)
| Mount                               (* the editor has loaded: [onMount] *)
| Tick (now : Z).                     (* time passes *)

(** [Session.handleCodeChange], the [onCodeChange] prop of the editor:
    [setCode(newCode); if (isConnected) sendCode(newCode, 'edit')], where
    [sendCode] is [useSessionSocket]'s, which calls the hook's
    [sendCodeChange] with the page's session id.  The page's own [code]
    state (written here and by the page's sync effect, read by the run
    button and the auto-save timer) is not part of [t]. *)
Definition handleCodeChange (c : t) (w : UseSocket.World) (newCode : string)
    : UseSocket.World :=
  if pageConnected c
  then UseSocket.sendCodeChange (clock c) (CodeEditor.sessionId (editor c))
         newCode "edit" w
  else w.

(** The calls of [onCodeChange] made between two states of the editor. *)
Definition notifications (before after : CodeEditor.state) : list string :=
  drop (length (CodeEditor.notified before)) (CodeEditor.notified after).

(** The editor runs [f] (a handler or a callback); React renders and the
    template effect runs. *)
Definition editor_after (f : CodeEditor.state → CodeEditor.state) (c : t)
    : CodeEditor.state :=
  CodeEditor.templateEffect (template c) (editor c) (f (editor c)).

(** The page has answered every [onCodeChange] call made on the way. *)
Definition world_after (f : CodeEditor.state → CodeEditor.state) (c : t)
    : UseSocket.World :=
  foldl (handleCodeChange c) (world c)
        (notifications (editor c) (editor_after f c)).

Definition editor_turn (f : CodeEditor.state → CodeEditor.state) (c : t)
    : t :=
  {| world := world_after f c; sess := sess c;
     editor := editor_after f c; chat := chat c;
     template := template c; pageConnected := pageConnected c;
     clock := clock c |}.

(** An event is handed to the listeners of both hooks; a chat message
    changes the [messages] prop, so a mounted [ChatWindow] re-runs its
    history effect. *)
Definition deliver (ev : inbound) (c : t) : t :=
  let sess' := SessionSocket.listener ev (sess c) in
  {| world := world_after (CodeEditor.listener ev) c;
     sess := sess';
     editor := editor_after (CodeEditor.listener ev) c;
     chat := match ev with
             | ChatMessage _ =>
                 ChatWindow.historyEffect (SessionSocket.chatMessages sess')
                   <$> chat c
             | _ => chat c
             end;
     template := template c; pageConnected := pageConnected c;
     clock := clock c |}.

Definition fire (tm : timer) (c : t) : t :=
  match tm with
  | ChatTypingTimeout =>
      {| world := world c; sess := sess c; editor := editor c;
         chat := ChatWindow.typingTimeoutFired <$> chat c;
         template := template c; pageConnected := pageConnected c;
         clock := clock c |}
  | EditorTypingTimeout =>
      {| world := world c; sess := sess c;
         editor := CodeEditor.lastChangeFired (editor c); chat := chat c;
         template := template c; pageConnected := pageConnected c;
         clock := clock c |}
  | CodeChangeDebounce now =>
      match CodeEditor.debounceTimeoutRef (editor c) with
      | Some (code, operation) =>
          {| world := UseSocket.sendCodeChange now
                        (CodeEditor.sessionId (editor c)) code operation
                        (world c);
             sess := sess c;
             editor := CodeEditor.set_debounce None (editor c);
             chat := chat c;
             template := template c; pageConnected := pageConnected c;
             clock := clock c |}
      | None => c
      end
  end.

Definition step (a : action) (c : t) : t :=
  match a with
  | Inbound ev => deliver ev c
  | Timer tm => fire tm c
  | Edit v => editor_turn (CodeEditor.userEdit v) c
  | ChatInput v =>
      {| world := world c; sess := sess c; editor := editor c;
         chat := ChatWindow.handleInputChange v <$> chat c;
         template := template c; pageConnected := pageConnected c;
         clock := clock c |}
  | ToggleChat =>
      {| world := world c; sess := sess c; editor := editor c;
         chat := match chat c with
                 | Some _ => None
                 | None =>
                     Some (ChatWindow.historyEffect
                             (SessionSocket.chatMessages (sess c))
                             ChatWindow.init)
                 end;
         template := template c; pageConnected := pageConnected c;
         clock := clock c |}
  | Mount =>
      match CodeEditor.editorRef (editor c) with
      | Some _ => c
      | None => editor_turn (CodeEditor.mount (template c)) c
      end
  | Tick now =>
      {| world := world c; sess := sess c; editor := editor c;
         chat := chat c;
         template := template c; pageConnected := pageConnected c;
         clock := now |}
  end.

Definition run (acts : list action) (c : t) : t :=
  foldl (λ c a, step a c) c acts.

(** The page once connected to session [sid], the chat panel shown and
    the editor still loading. *)
Definition loading (sid template : string) : t :=
  {| world := Transport.run UseSocket.body None [TConnect] UseSocket.boot;
     sess := SessionSocket.init;
     editor := CodeEditor.init sid false true;
     chat := Some ChatWindow.init;
     template := template; pageConnected := true; clock := 0 |}.

(** The same page once the editor has mounted with [template]. *)
Definition start (sid template : string) : t :=
  step Mount (loading sid template).

(** The chat window is shown and its history holds every message the
    hook has logged, no id twice. *)
Definition chat_in_step (c : t) : Prop :=
  ∃ h, chat c = Some h ∧
       Forall (λ m, ChatWindow.known (ChatWindow.messageHistory h) m = true)
              (SessionSocket.chatMessages (sess c)) ∧
       NoDup (msg_id <$> ChatWindow.messageHistory h).

End Client.

(** ** Sentences of the specification that the code does not satisfy,
    as the specification words them *)

Module Stated.

(** A connected page: [connect], then the transport's [connect] event. *)
Definition connected_world : UseSocket.World :=
  Transport.run UseSocket.body None [TConnect] UseSocket.boot.

Definition connected_service : SocketService.t :=
  Dispatcher.svc connected_world.

(** "Sending [leave-session] twice in succession for the same session id
    produces only one outbound leave message": the second call adds
    nothing to the wire. *)
Definition leave_is_idempotent : Prop :=
  ∀ (s : SocketService.t) (sessionId : string),
    length (SocketService.sent
              (SocketService.leaveSession sessionId
                 (SocketService.leaveSession sessionId s))) =
    length (SocketService.sent (SocketService.leaveSession sessionId s)).

(** The events that change the participant roster. *)
Definition roster_event (ev : inbound) : bool :=
  match ev with
  | SessionParticipants _ | UserJoined _ | UserLeft _ _ => true
  | _ => false
  end.

(** "Invariant: no duplicate entries for the same connection id",
    preserved by every roster operation. *)
Definition roster_ids_stay_distinct : Prop :=
  ∀ (st : SessionSocket.state) (ev : inbound),
    roster_event ev = true →
    NoDup (SessionSocket.connection_ids (SessionSocket.participants st)) →
    NoDup (SessionSocket.connection_ids
             (SessionSocket.participants (SessionSocket.listener ev st))).


(** The events that end an execution. *)
Definition terminal_event (ev : inbound) : bool :=
  match ev with
  | ExecutionResult _ _ | ExecutionError _ => true
  | _ => false
  end.

(** "Terminal events clear [isRunning] and populate exactly one of
    [result]/[error], never both." *)
Definition terminal_event_populates_one : Prop :=
  ∀ (st : SessionSocket.state) (ev : inbound),
    terminal_event ev = true →
    let e := SessionSocket.executionState (SessionSocket.listener ev st) in
    SessionSocket.isRunning e = false ∧
    xorb (populated (SessionSocket.result e))
         (populated (SessionSocket.error e)) = true.

(** "A [code-change] event with [from] equal to ["self"] must not mutate
    the document buffer", the guard being "disarmed after this one
    skip": on the page, no copy of the document changes and the guard is
    clear afterwards. *)
Definition self_echo_leaves_document : Prop :=
  ∀ (sid template : string) (acts : list Client.action)
    (newCode operation : string),
    let c := Client.run acts (Client.loading sid template) in
    let c' := Client.deliver (CodeChange newCode operation "self") c in
    SessionSocket.codeState (Client.sess c') =
      SessionSocket.codeState (Client.sess c) ∧
    CodeEditor.editorRef (Client.editor c') =
      CodeEditor.editorRef (Client.editor c) ∧
    CodeEditor.code (Client.editor c') = CodeEditor.code (Client.editor c) ∧
    CodeEditor.suppressNextChangeRef (Client.editor c') = false.


(** "A typing flag set via [typing-status-update{isTyping:true}] for
    user U auto-clears ... even with no further events": some run of
    local timers removes U. *)
Definition typing_flag_expires : Prop :=
  ∀ (c : Client.t) (U : string),
    ∃ tms : list Client.timer,
      U ∉ SessionSocket.typingUsers
            (Client.sess
               (Client.run (Client.Timer <$> tms)
                  (Client.deliver (TypingStatusUpdate U true) c))).

(** "Incoming message is appended if no existing entry shares its id",
    and only then. *)
Definition chat_log_appends_iff_new : Prop :=
  ∀ (st : SessionSocket.state) (m : chat_message),
    SessionSocket.chatMessages (SessionSocket.listener (ChatMessage m) st) =
    if bool_decide (msg_id m ∈ msg_id <$> SessionSocket.chatMessages st)
    then SessionSocket.chatMessages st
    else SessionSocket.chatMessages st ++ [m].



(** A chat message with id [i]. *)
Definition msg (i : Z) : chat_message := ChatMsg i "bob" "hi" i.

(** The toast of the [connect_error] handler. *)
Definition unable_to_connect : string :=
  "Unable to connect to server. Please refresh the page.".


End Stated.

(** ** The rest of the service ([src/services/socket.js]) *)

Module ServiceMore.
Import SocketService Dispatcher.



(** What a transport event does to the service record, whatever the
    subscribers of the service's events do. *)
Definition service_effect (the_user : option user) (ev : transport_event)
    (s0 : t) : t :=
  let s := Transport.socket_follows ev s0 in
  match ev with
  | TConnect =>
      let s1 := with_attempts 0 (with_isConnected true s) in
      match the_user with
      | Some u => authenticate u s1
      | None => s1
      end
  | TDisconnect reason =>
      let s1 := with_isConnected false s in
      if decide (reason = "io server disconnect")
      then with_socket (sock_call SockConnect <$> socket s1) s1
      else s1
  | TConnectError _ => with_attempts (S (reconnectAttempts s)) s
  | _ => s
  end.

(** The calls of [socket.connect()] among the calls made on a socket. *)
Definition is_connect_call (c : sockcall) : bool :=
  match c with SockConnect => true | _ => false end.

Definition connect_calls (s : t) : nat :=
  match socket s with
  | Some sk => length (filter (λ c, is_connect_call c = true) (calls sk))
  | None => 0
  end.

End ServiceMore.

(** ** [addEventListener] and [disconnectSocket] of [useSocket] *)

Module EventListeners.
Import SocketService Dispatcher.

(** The hook with its [listenersRef]. *)
Record hook := Mk {
  base : UseSocket.World;
  listenersRef : gmap string (list callback);
}.

(** The function [addEventListener] returns. *)
Inductive cleanup :=
| Noop                                          (* [() => {}] *)
| Unsubscribe (eventName : string) (cb : callback).

Definition addEventListener (eventName : string) (cb : callback) (h : hook)
    : hook * cleanup :=
  if UseSocket.socketRef (ui (base h)) then
    let w := with_svc (on eventName cb (svc (base h))) (base h) in
    let m := listenersRef h in
    let m1 := if decide (is_Some (m !! eventName)) then m
              else <[eventName := []]> m in
    ({| base := w; listenersRef := alter (set_add cb) eventName m1 |},
     Unsubscribe eventName cb)
  else (h, Noop).

Definition run_cleanup (c : cleanup) (h : hook) : hook :=
  match c with
  | Noop => h
  | Unsubscribe eventName cb =>
      let m := listenersRef h in
      {| base := with_svc (off eventName cb (svc (base h))) (base h);
         listenersRef := if decide (is_Some (m !! eventName))
                         then alter (set_delete cb) eventName m
                         else m |}
  end.

(** [disconnectSocket()] *)
Definition disconnectSocket (h : hook) : hook :=
  if UseSocket.socketRef (ui (base h)) then
    let w1 := with_svc (disconnect (svc (base h))) (base h) in
    {| base := UseSocket.with_ui
                 (UseSocket.setConnectionStatus "disconnected"
                    (UseSocket.setSocketRef false (ui w1))) w1;
       listenersRef := ∅ |}
  else h.

(** The callbacks the hook remembers for an event. *)
Definition remembered (eventName : string) (h : hook) : list callback :=
  default [] (listenersRef h !! eventName).

End EventListeners.

(** ** What a run of session events leaves in [useSessionSocket] *)

Module SessionMore.

(** The chat messages among the events, in order of arrival. *)
Definition chat_events (evs : list inbound) : list chat_message :=
  omap (λ ev, match ev with ChatMessage m => Some m | _ => None end) evs.

(** The document a code event carries. *)
Definition code_of (ev : inbound) : option string :=
  match ev with
  | CodeSync c | CodeChange c _ _ => Some c
  | _ => None
  end.

(** The document of the last code event, [c0] when there is none. *)
Definition last_code (c0 : string) (evs : list inbound) : string :=
  foldl (λ c ev, default c (code_of ev)) c0 evs.

(** Whether [U] is typing after the events, [r] being so before. *)
Definition typing_after (U : string) (r : bool) (evs : list inbound) : bool :=
  foldl (λ r ev, match ev with
                 | TypingStatusUpdate u b => if decide (u = U) then b else r
                 | _ => r
                 end) r evs.

(** The cursor last reported for connection [sid], [c0] before. *)
Definition cursor_after (sid : string) (c0 : option cursor)
    (evs : list inbound) : option cursor :=
  foldl (λ c ev, match ev with
                 | CursorUpdate s u p col =>
                     if decide (s = sid) then Some (Cursor u p col) else c
                 | _ => c
                 end) c0 evs.

(** Whether an execution is shown as running after the events. *)
Definition running_after (r : bool) (evs : list inbound) : bool :=
  foldl (λ r ev, match ev with
                 | ExecutionStarted _ => true
                 | ExecutionResult _ _ | ExecutionError _ => false
                 | _ => r
                 end) r evs.

(** [clearChat()] *)
Definition clearChat (st : SessionSocket.state) : SessionSocket.state :=
  SessionSocket.setChatMessages (λ _, []) st.

End SessionMore.

(** ** [String.prototype.hashCode] (src/components/Session/CodeEditor.js) *)

Module HashCode.
Local Open Scope Z_scope.

(** ToInt32: the signed 32-bit integer congruent to [z]. *)
Definition to_int32 (z : Z) : Z :=
  (z + 2 ^ 31) mod 2 ^ 32 - 2 ^ 31.

(** [hash << 5] *)
Definition shl5 (h : Z) : Z := to_int32 (Z.shiftl (to_int32 h) 5).

(** [hash & hash] *)
Definition and_self (h : Z) : Z := to_int32 h.

(** One turn of the loop:
    [hash = ((hash << 5) - hash) + char; hash = hash & hash;] *)
Definition hash_step (hash char : Z) : Z :=
  and_self ((shl5 hash - hash) + char).

(** [hashCode()], on the UTF-16 code units of the string. *)
Definition hashCode (s : list Z) : Z :=
  foldl hash_step 0 s.

(** [Math.abs(userId.hashCode()) % 6 + 1], the colour class of a user. *)
Definition colour_class (s : list Z) : Z :=
  Z.rem (Z.abs (hashCode s)) 6 + 1.

(** The polynomial [s[0]*31^(n-1) + ... + s[n-1]], from left to right. *)
Definition poly31 (s : list Z) : Z :=
  foldl (λ h c, 31 * h + c) 0 s.

End HashCode.

(** ** The history of [ExecutionPanel]
    (src/components/Session/ExecutionPanel.js) *)

Module ExecutionPanel.

(** JavaScript truthiness of a value. *)
Definition truthy (v : jsvalue) : bool :=
  match v with
  | JNull => false
  | JString s => negb (bool_decide (s = ""))
  | JNumber z => negb (bool_decide (z = 0%Z))
  | JObject _ => true
  end.

(** [a || b] on values. *)
Definition js_or (a b : jsvalue) : jsvalue := if truthy a then a else b.

Record entry := Entry {
  e_id : Z;
  e_timestamp : Z;
  e_language : string;
  e_input : string;
  e_result : jsvalue;
  e_error : jsvalue;
  e_executedBy : string;
}.

Record props := Props {
  executionState : SessionSocket.execution;
  localResult : jsvalue;
  loading : bool;
  local_error : jsvalue;
  language : string;
}.

Definition currentResult (p : props) : jsvalue :=
  js_or (SessionSocket.result (executionState p)) (localResult p).

Definition currentError (p : props) : jsvalue :=
  js_or (SessionSocket.error (executionState p)) (local_error p).

Definition isExecuting (p : props) : bool :=
  SessionSocket.isRunning (executionState p) || loading p.

(** [executedBy || 'You'] *)
Definition shownExecutedBy (p : props) : string :=
  match SessionSocket.executedBy (executionState p) with
  | Some u => if bool_decide (u = "") then "You" else u
  | None => "You"
  end.

(** The "add execution to history" effect; [now] is the time of the
    render ([Date.now()], [new Date()]) and [input] the panel's input
    box. *)
Definition historyEffect (now : Z) (input : string) (p : props)
    (history : list entry) : list entry :=
  if truthy (currentResult p) && negb (isExecuting p) then
    {| e_id := now; e_timestamp := now; e_language := language p;
       e_input := input;
       e_result := currentResult p; e_error := currentError p;
       e_executedBy := shownExecutedBy p |} :: take 19 history
  else history.

(** The effect run once for each of a series of renders. *)
Definition renders (rs : list (Z * string * props)) (history : list entry)
    : list entry :=
  foldl (λ h r, historyEffect r.1.1 r.1.2 r.2 h) history rs.

End ExecutionPanel.

(** ** States of the page *)

Module Page.
Import Client.


(** The [code] state shows the editor's text. *)
Definition in_sync (c : Client.t) : Prop :=
  CodeEditor.editorRef (editor c) = Some (CodeEditor.code (editor c)) ∧
  CodeEditor.suppressNextChangeRef (editor c) = false.

(** The guard is clear and the editor, if mounted, shows its [code]
    state. *)
Definition shows_code (st : CodeEditor.state) : Prop :=
  CodeEditor.suppressNextChangeRef st = false ∧
  ∀ v, CodeEditor.editorRef st = Some v → v = CodeEditor.code st.

(** What holds of the editor between two steps of the page, mounted or
    not: the guard is clear, and a mounted editor shows its [code]
    state, which is empty only where the template is. *)
Definition settled (c : Client.t) : Prop :=
  CodeEditor.suppressNextChangeRef (editor c) = false ∧
  ∀ v, CodeEditor.editorRef (editor c) = Some v →
       v = CodeEditor.code (editor c) ∧ (v = "" → template c = "").

(** The document of an inbound event, if it carries one that the
    editor's callback would write. *)
Definition written_code (ev : inbound) : option string :=
  match ev with
  | CodeSync c => Some c
  | CodeChange c _ from => if decide (from = "self") then None else Some c
  | _ => None
  end.


End Page.
(** ** Properties of the registry and of delivery *)

Module DispatcherFacts.
Import SocketService Dispatcher.

Lemma set_add_elem (cb c : callback) (l : list callback) :
  cb ∈ set_add c l ↔ cb ∈ l ∨ cb = c.
Proof.
  unfold set_add. case_decide as Hin.
  - split; [auto | intros [H | ->]; done].
  - rewrite elem_of_app, list_elem_of_singleton. done.
Qed.


Lemma set_delete_elem (cb c : callback) (l : list callback) :
  cb ∈ set_delete c l ↔ cb ∈ l ∧ cb ≠ c.
Proof. unfold set_delete. rewrite list_elem_of_filter. tauto. Qed.



Lemma on_socket e c s : is_Some (socket s) → is_Some (socket (on e c s)).
Proof. intros [sk Hs]. unfold on. rewrite Hs. simpl. eauto. Qed.


Lemma on_listeners e e' c s :
  is_Some (socket s) →
  listeners e (on e' c s) =
    if decide (e = e') then set_add c (listeners e s) else listeners e s.
Proof.
  intros [sk Hs]. unfold on, listeners. rewrite Hs. simpl.
  destruct (decide (e = e')) as [-> | He].
  - rewrite lookup_alter_eq.
    case_decide as Hsome.
    + destruct Hsome as [l Hl]. by rewrite Hl.
    + rewrite lookup_insert_eq. simpl.
      apply eq_None_not_Some in Hsome. by rewrite Hsome.
  - rewrite lookup_alter_ne by done.
    case_decide; [done |]. by rewrite lookup_insert_ne.
Qed.

Lemma off_listeners e e' c s :
  is_Some (socket s) →
  listeners e (off e' c s) =
    if decide (e = e') then set_delete c (listeners e s) else listeners e s.
Proof.
  intros [sk Hs]. unfold off, listeners. rewrite Hs. simpl.
  destruct (decide (e = e')) as [-> | He].
  - case_decide as Hsome.
    + rewrite lookup_alter_eq. destruct Hsome as [l Hl]. by rewrite Hl.
    + apply eq_None_not_Some in Hsome. by rewrite Hsome.
  - case_decide; [| done]. by rewrite lookup_alter_ne.
Qed.








Section Delivery.
Context {Ui Data : Type}.
Variable body : callback → Data → Ui → outcome Ui.

Lemma guarded_returns e d cb (w : World (Ui:=Ui) (Data:=Data)) :
  ∃ w', guarded body e d cb w = Returned w' ∧
        svc w' = svc w ∧
        invoked w' = invoked w ++ [(cb, d)] ∧
        toasts w' = toasts w.
Proof.
  unfold guarded, call. simpl.
  destruct (body cb d (ui w)); simpl; eexists; split_and!; reflexivity.
Qed.

(** Delivery never stops early: every visited callback is called, in
    order, whatever the earlier ones did. *)
Lemma forEach_guarded e d l (w : World (Ui:=Ui) (Data:=Data)) :
  ∃ w', forEach (guarded body e d) l w = Returned w' ∧
        svc w' = svc w ∧
        invoked w' = invoked w ++ map (λ cb, (cb, d)) l ∧
        toasts w' = toasts w.
Proof.
  revert w. induction l as [| cb l IH]; intros w; simpl.
  - exists w. by rewrite app_nil_r.
  - destruct (guarded_returns e d cb w) as (w1 & -> & Hs & Hi & Ht).
    destruct (IH w1) as (w2 & -> & Hs2 & Hi2 & Ht2).
    exists w2. rewrite Hs2, Hi2, Hi, Ht2, <- app_assoc. done.
Qed.

Lemma emit_returns e d (w : World (Ui:=Ui) (Data:=Data)) :
  ∃ w', emit body e d w = Returned w' ∧
        svc w' = svc w ∧
        invoked w' = invoked w ++ map (λ cb, (cb, d)) (listeners e (svc w)) ∧
        toasts w' = toasts w.
Proof.
  unfold emit, listeners.
  destruct (eventListeners (svc w) !! e) as [l |]; simpl.
  - apply forEach_guarded.
  - exists w. by rewrite app_nil_r.
Qed.




End Delivery.



End DispatcherFacts.
(** ** The event dispatcher *)

Module DispatcherClaims.
Import SocketService Dispatcher DispatcherFacts.






(** A delivery where the first of two subscribers throws: both are
    called, the exception is logged and does not escape. *)
Example emit_isolates_thrower :
  let body := λ (cb : callback) (d : string) (u : list string),
                if decide (cb = 1) then Thrown "boom" u
                else Returned (u ++ [d]) in
  let w := {| svc := run_ops [On "e" 1; On "e" 2; On "e" 1]
                             (connect new);
              ui := []; invoked := []; console_error := []; toasts := [] |} in
  let o := emit body "e" "x" w in
  returns o = true ∧
  invoked (final o) = [(1, "x"); (2, "x")] ∧
  ui (final o) = ["x"] ∧
  console_error (final o) = ["Error in e listener:"].
Proof. vm_compute. done. Qed.

(** The registry of the specification on a short run of calls. *)
Example registered_after_calls :
  let ops := [On "e" 1; On "e" 2; On "e" 1; Off "e" 2; On "f" 3] in
  registered ops "e" 1 = true ∧ registered ops "e" 2 = false ∧
  registered ops "e" 3 = false ∧ registered ops "f" 3 = true ∧
  listeners "e" (run_ops ops (connect new)) = [1] ∧
  listeners "f" (run_ops ops (connect new)) = [3].
Proof. vm_compute. done. Qed.

(** Before [connect] there is no socket and [on] stores nothing. *)
Example on_without_socket :
  on "e" 1 new = new.
Proof. reflexivity. Qed.

End DispatcherClaims.

(** ** The senders of the service *)

Module SenderClaims.
Import SocketService Stated.

Lemma send_disconnected e p s : socket_connected s = false → send e p s = s.
Proof.
  unfold socket_connected, send.
  destruct (socket s) as [sk |]; [| done]. by intros ->.
Qed.

Lemma send_sent e p s :
  sent (send e p s) = sent s ++ (if socket_connected s then [(e, p)] else []).
Proof.
  unfold send, sent, socket_connected.
  destruct (socket s) as [sk |] eqn:Hs; simpl.
  - destruct (connected sk) eqn:Hc; simpl.
    + unfold emitted. simpl. by rewrite omap_app.
    + by rewrite Hs, app_nil_r.
  - by rewrite Hs.
Qed.

Lemma send_connected e p s : socket_connected (send e p s) = socket_connected s.
Proof.
  unfold send, socket_connected.
  destruct (socket s) as [sk |] eqn:Hs; simpl; [| by rewrite Hs].
  destruct (connected sk) eqn:Hc; simpl; [done | by rewrite Hs].
Qed.

(** C8, as stated, fails: on a connected service the second call
    writes a second message. *)
Lemma leave_twice_sends_twice : ¬ leave_is_idempotent.
Proof.
  intros H. specialize (H connected_service "ABCDEF").
  vm_compute in H. discriminate.
Qed.

Example leave_twice_wire :
  sent (leaveSession "ABCDEF" (leaveSession "ABCDEF" connected_service)) =
  [("leave-session", PLeaveSession "ABCDEF");
   ("leave-session", PLeaveSession "ABCDEF")].
Proof. reflexivity. Qed.

(** The hook adds no guard of its own: the cleanup of the join effect,
    run on a change of [isConnected] and again on unmount, writes a
    [leave-session] message each time. *)
Example cleanup_twice_wire :
  let alice := Some (User "u1" "alice" "") in
  let w1 := UseSocket.joinEffect alice "ABCDEF" connected_world in
  let w2 := UseSocket.joinCleanup "ABCDEF"
              (UseSocket.joinCleanup "ABCDEF" w1) in
  sent (Dispatcher.svc w2) =
  [("join-session", PJoinSession "ABCDEF" (User "u1" "alice" ""));
   ("leave-session", PLeaveSession "ABCDEF");
   ("leave-session", PLeaveSession "ABCDEF")].
Proof. vm_compute. reflexivity. Qed.

(** C8, amended.  [leaveSession] keeps no record of membership: each
    call on a connected socket writes one [leave-session] message, so
    two calls in succession write two; on a socket that is not connected
    a call writes nothing and changes nothing. *)
Theorem leaveSession_sends_per_call (s : t) (sessionId : string) :
  let m := ("leave-session", PLeaveSession sessionId) in
  sent (leaveSession sessionId s) =
    sent s ++ (if socket_connected s then [m] else []) ∧
  sent (leaveSession sessionId (leaveSession sessionId s)) =
    sent s ++ (if socket_connected s then [m; m] else []) ∧
  (if socket_connected s then True
   else leaveSession sessionId (leaveSession sessionId s) = s).
Proof.
  simpl. unfold leaveSession. split_and!.
  - apply send_sent.
  - rewrite !send_sent, send_connected.
    destruct (socket_connected s); by rewrite <- app_assoc.
  - destruct (socket_connected s) eqn:Hc; [done |].
    rewrite (send_disconnected _ _ s Hc). by apply send_disconnected.
Qed.

(** C10.  When the socket is absent or not connected, each of the five
    senders returns the service exactly as it was: nothing is written to
    the socket and nothing is stored for later.  The same holds for the
    wrappers that [useSocket] exports. *)
Theorem senders_drop_when_disconnected (s : t) (now : Z)
    (sessionId code operation language input message : string)
    (pos : position) :
  socket_connected s = false →
  leaveSession sessionId s = s ∧
  sendCodeChange now sessionId code operation s = s ∧
  sendCursorPosition now sessionId pos s = s ∧
  executeCode now sessionId code language input s = s ∧
  sendChatMessage now sessionId message s = s.
Proof.
  intros Hc.
  unfold leaveSession, sendCodeChange, sendCursorPosition, executeCode,
    sendChatMessage.
  split_and!; by apply send_disconnected.
Qed.

Lemma senders_drop_when_disconnected_witness :
  socket_connected (connect new) = false ∧
  leaveSession "ABCDEF" (connect new) = connect new ∧
  sendCodeChange 7 "ABCDEF" "x=1" "edit" (connect new) = connect new ∧
  sendCursorPosition 7 "ABCDEF" (Position 1 1) (connect new) = connect new ∧
  executeCode 7 "ABCDEF" "x=1" "python" "" (connect new) = connect new ∧
  sendChatMessage 7 "ABCDEF" "hi" (connect new) = connect new.
Proof.
  split; [reflexivity |].
  apply (senders_drop_when_disconnected (connect new) 7 "ABCDEF" "x=1" "edit"
           "python" "" "hi" (Position 1 1)).
  reflexivity.
Defined.

(** The hook's wrappers add no state of their own. *)
Lemma hook_senders_drop_when_disconnected (w : UseSocket.World) (now : Z)
    (sessionId code operation language input message : string)
    (pos : position) :
  socket_connected (Dispatcher.svc w) = false →
  UseSocket.leaveSession sessionId w = w ∧
  UseSocket.sendCodeChange now sessionId code operation w = w ∧
  UseSocket.sendCursorPosition now sessionId pos w = w ∧
  UseSocket.executeCode now sessionId code language input w = w ∧
  UseSocket.sendChatMessage now sessionId message w = w.
Proof.
  intros Hc.
  unfold UseSocket.leaveSession, UseSocket.sendCodeChange,
    UseSocket.sendCursorPosition, UseSocket.executeCode,
    UseSocket.sendChatMessage.
  unfold leaveSession, sendCodeChange, sendCursorPosition, executeCode,
    sendChatMessage.
  rewrite !(send_disconnected _ _ _ Hc).
  destruct w as [sv h i ce ts]; simpl.
  by destruct (UseSocket.socketRef h).
Qed.

End SenderClaims.

(** ** The reducers of [useSessionSocket] *)

Module SessionClaims.
Import SessionSocket Stated.

(** C5, as stated, fails for a terminal event that carries no payload:
    after [execution-result] with [result: null], neither [result] nor
    [error] is populated. *)
Lemma null_result_populates_neither : ¬ terminal_event_populates_one.
Proof.
  intros H.
  destruct (H init (ExecutionResult JNull "bob") eq_refl) as [_ Hx].
  discriminate.
Qed.

(** C5, amended.  From any state of the slot, [execution-started] sets
    it to [{isRunning: true, executedBy: username, result: null,
    error: null}]; [execution-result] and [execution-error] clear
    [isRunning], take one of [result]/[error] from the event and set the
    other to [null], so the two are never both populated, and exactly
    one is if and only if the event's payload is not [null]. *)
Theorem execution_slot_transitions (st : state) :
  (∀ uname,
     executionState (listener (ExecutionStarted uname) st) =
     {| isRunning := true; result := JNull; error := JNull;
        executedBy := Some uname |}) ∧
  (∀ res by_user,
     let e := executionState (listener (ExecutionResult res by_user) st) in
     isRunning e = false ∧ result e = res ∧ error e = JNull ∧
     populated (result e) && populated (error e) = false ∧
     xorb (populated (result e)) (populated (error e)) = populated res) ∧
  (∀ err,
     let e := executionState (listener (ExecutionError err) st) in
     isRunning e = false ∧ result e = JNull ∧ error e = err ∧
     populated (result e) && populated (error e) = false ∧
     xorb (populated (result e)) (populated (error e)) = populated err).
Proof.
  split_and!.
  - done.
  - intros res by_user. simpl. split_and!; try done.
    + apply andb_false_r.
    + apply xorb_false_r.
  - intros err. simpl. split_and!; done.
Qed.

(** The scenario of the specification. *)
Example execution_scenario :
  let s1 := listener (ExecutionStarted "bob") init in
  let s2 := listener
              (ExecutionResult (JObject [("output", "5")]) "bob") s1 in
  executionState s1 =
    {| isRunning := true; result := JNull; error := JNull;
       executedBy := Some "bob" |} ∧
  executionState s2 =
    {| isRunning := false; result := JObject [("output", "5")];
       error := JNull; executedBy := Some "bob" |}.
Proof. done. Qed.

(** *** The roster *)

Lemma filter_ids_NoDup (sid : string) (l : list participant) :
  NoDup (connection_ids l) →
  NoDup (connection_ids (filter (λ p, socketId p ≠ sid) l)).
Proof.
  unfold connection_ids. induction l as [| p l IH]; simpl; [done |].
  rewrite NoDup_cons. intros [Hp Hl].
  rewrite filter_cons. case_decide as Hne; [| by apply IH].
  simpl. apply NoDup_cons. split; [| by apply IH].
  rewrite list_elem_of_fmap. intros (q & Hq & Hin).
  apply list_elem_of_filter in Hin as [_ Hin].
  apply Hp. rewrite list_elem_of_fmap. eauto.
Qed.

Lemma filter_ids_gone (sid : string) (l : list participant) :
  sid ∉ connection_ids (filter (λ p, socketId p ≠ sid) l).
Proof.
  unfold connection_ids. rewrite list_elem_of_fmap.
  intros (q & Hq & Hin). apply list_elem_of_filter in Hin as [Hne _].
  by apply Hne.
Qed.

Lemma app_ids_NoDup (u : participant) (l : list participant) :
  NoDup (connection_ids l) →
  NoDup (connection_ids (l ++ [u])) ↔ socketId u ∉ connection_ids l.
Proof.
  intros Hl. unfold connection_ids in *. rewrite fmap_app. simpl.
  rewrite NoDup_app. split.
  - intros (_ & Hdisj & _) Hin. apply (Hdisj _ Hin).
    apply list_elem_of_singleton. done.
  - intros Hnin. split_and!; [done | | apply NoDup_singleton].
    intros x Hx Hx'. apply list_elem_of_singleton in Hx'. by subst.
Qed.

(** C9, as stated, fails: [user-joined] for a connection id that is
    already in the roster adds a second entry for it. *)
Lemma user_joined_duplicates_id : ¬ roster_ids_stay_distinct.
Proof.
  intros H.
  specialize (H (setParticipants (λ _, [Participant "s1" "bob" "u1" "editor"])
                   init)
                (UserJoined (Participant "s1" "bob" "u1" "editor"))
                eq_refl).
  simpl in H. unfold connection_ids in H. simpl in H.
  assert (Hnd : NoDup ["s1"]) by apply NoDup_singleton.
  apply H in Hnd. apply NoDup_cons in Hnd as [Hnin _].
  apply Hnin. apply list_elem_of_singleton. done.
Qed.

(** C9, amended.  On a roster without duplicate connection ids:
    [user-left] drops every entry of the leaving connection and keeps
    the ids distinct; [session-participants] installs the server's list
    as it is; [user-joined] appends the new entry without looking at
    the roster, so the ids stay distinct exactly when the joining
    connection id was not yet present. *)
Theorem roster_updates (st : state) :
  NoDup (connection_ids (participants st)) →
  (∀ sid u,
     let r := participants (listener (UserLeft sid u) st) in
     r = filter (λ p, socketId p ≠ sid) (participants st) ∧
     NoDup (connection_ids r) ∧ sid ∉ connection_ids r) ∧
  (∀ l, participants (listener (SessionParticipants l) st) = l) ∧
  (∀ u,
     let r := participants (listener (UserJoined u) st) in
     r = participants st ++ [u] ∧
     (NoDup (connection_ids r) ↔
      socketId u ∉ connection_ids (participants st))).
Proof.
  intros Hnd. split_and!.
  - intros sid u. simpl. split_and!.
    + done.
    + by apply filter_ids_NoDup.
    + apply filter_ids_gone.
  - done.
  - intros u. simpl. split; [done |]. by apply app_ids_NoDup.
Qed.

Lemma roster_updates_witness :
  let st := setParticipants (λ _, [Participant "s1" "bob" "u1" "editor"])
              init in
  NoDup (connection_ids (participants st)) ∧
  participants (listener (UserLeft "s1" (Participant "s1" "bob" "u1" "editor"))
                  st) = [] ∧
  participants (listener (UserJoined (Participant "s2" "eve" "u2" "viewer"))
                  st) =
    [Participant "s1" "bob" "u1" "editor";
     Participant "s2" "eve" "u2" "viewer"].
Proof.
  assert (Hnd : NoDup (connection_ids
            (participants
               (setParticipants
                  (λ _, [Participant "s1" "bob" "u1" "editor"]) init)))).
  { apply NoDup_singleton. }
  pose proof (roster_updates _ Hnd) as (Hleft & _ & Hjoin).
  simpl. split_and!.
  - exact Hnd.
  - apply (Hleft "s1" (Participant "s1" "bob" "u1" "editor")).
  - apply (Hjoin (Participant "s2" "eve" "u2" "viewer")).
Defined.

End SessionClaims.

(** ** The document: [CodeEditor] and the session hook *)

Module DocumentClaims.
Import Client Stated Page.

Lemma content_change_suppress st :
  CodeEditor.suppressNextChangeRef (CodeEditor.onDidChangeModelContent st) =
  CodeEditor.suppressNextChangeRef st.
Proof.
  unfold CodeEditor.onDidChangeModelContent.
  destruct (CodeEditor.suppressNextChangeRef st) eqn:Hs; [done |].
  destruct (CodeEditor.editorRef st); [| done].
  unfold CodeEditor.sendCodeChange. simpl.
  repeat case_match; simpl; done.
Qed.

Lemma setValue_suppress v st :
  CodeEditor.suppressNextChangeRef (CodeEditor.setValue v st) =
  CodeEditor.suppressNextChangeRef st.
Proof.
  unfold CodeEditor.setValue. destruct (CodeEditor.editorRef st); [| done].
  by rewrite content_change_suppress.
Qed.

(** While the guard is set, writing into the editor changes its text and
    nothing else. *)
Lemma setValue_suppressed v st :
  CodeEditor.suppressNextChangeRef st = true →
  is_Some (CodeEditor.editorRef st) →
  CodeEditor.setValue v st = CodeEditor.set_editor (Some v) st.
Proof.
  intros Hs [old Hed]. unfold CodeEditor.setValue. rewrite Hed.
  unfold CodeEditor.onDidChangeModelContent. simpl. by rewrite Hs.
Qed.

(** While it is clear, the content handler takes the text over. *)
Lemma setValue_shows v st :
  CodeEditor.suppressNextChangeRef st = false →
  is_Some (CodeEditor.editorRef st) →
  CodeEditor.editorRef (CodeEditor.setValue v st) = Some v ∧
  CodeEditor.code (CodeEditor.setValue v st) = v.
Proof.
  intros Hs [old Hed]. unfold CodeEditor.setValue. rewrite Hed.
  unfold CodeEditor.onDidChangeModelContent. simpl. rewrite Hs.
  unfold CodeEditor.sendCodeChange. simpl.
  repeat case_match; simpl; done.
Qed.

Lemma setValue_unmounted v st :
  CodeEditor.editorRef st = None → CodeEditor.setValue v st = st.
Proof. intros Hed. unfold CodeEditor.setValue. by rewrite Hed. Qed.

Lemma onCodeChange_suppress newCode operation from st :
  CodeEditor.suppressNextChangeRef
    (CodeEditor.onCodeChange newCode operation from st) =
  CodeEditor.suppressNextChangeRef st.
Proof.
  unfold CodeEditor.onCodeChange.
  destruct (CodeEditor.suppressNextChangeRef st) eqn:Hs.
  - by rewrite andb_false_r.
  - rewrite andb_true_r. case_match; simpl; done.
Qed.

Lemma onCodeChange_self newCode operation st :
  CodeEditor.onCodeChange newCode operation "self" st = st.
Proof. reflexivity. Qed.

(** What a remote change does to a mounted editor whose guard is clear. *)
Lemma onCodeChange_applies newCode operation from st :
  from ≠ "self" →
  is_Some (CodeEditor.editorRef st) →
  CodeEditor.suppressNextChangeRef st = false →
  CodeEditor.onCodeChange newCode operation from st =
  CodeEditor.setCode newCode (CodeEditor.set_editor (Some newCode) st).
Proof.
  intros Hfrom Hed Hs. unfold CodeEditor.onCodeChange.
  rewrite (bool_decide_eq_true_2 _ Hfrom), (bool_decide_eq_true_2 _ Hed), Hs.
  simpl. rewrite setValue_suppressed by done.
  destruct st; simpl in *. by subst.
Qed.

Lemma onCodeChange_unmounted newCode operation from st :
  CodeEditor.editorRef st = None →
  CodeEditor.onCodeChange newCode operation from st = st.
Proof.
  intros Hed. unfold CodeEditor.onCodeChange.
  rewrite (bool_decide_eq_false_2 (is_Some (CodeEditor.editorRef st))).
  - by rewrite andb_false_r.
  - rewrite Hed. by intros [? ?].
Qed.

Lemma listener_suppress ev st :
  CodeEditor.suppressNextChangeRef (CodeEditor.listener ev st) =
  CodeEditor.suppressNextChangeRef st.
Proof. destruct ev; simpl; try done; apply onCodeChange_suppress. Qed.

Lemma mount_suppress tpl st :
  CodeEditor.suppressNextChangeRef (CodeEditor.mount tpl st) =
  CodeEditor.suppressNextChangeRef st.
Proof. unfold CodeEditor.mount. simpl. by rewrite setValue_suppress. Qed.

(** *** The template effect *)

Lemma templateEffect_suppress tpl before st :
  CodeEditor.suppressNextChangeRef (CodeEditor.templateEffect tpl before st) =
  CodeEditor.suppressNextChangeRef st.
Proof.
  unfold CodeEditor.templateEffect. case_match; [| done].
  by rewrite setValue_suppress.
Qed.

(** It does not run when neither dependency has changed. *)
Lemma templateEffect_same tpl st :
  CodeEditor.templateEffect tpl st st = st.
Proof.
  unfold CodeEditor.templateEffect.
  destruct (bool_decide (is_Some (CodeEditor.editorRef st))); simpl;
    [| done].
  rewrite (bool_decide_eq_true_2 (CodeEditor.code st = CodeEditor.code st))
    by done.
  simpl. by rewrite andb_false_r.
Qed.





Lemma setCode_editorRef v st :
  CodeEditor.editorRef (CodeEditor.setCode v st) = CodeEditor.editorRef st.
Proof. done. Qed.

(** *** What holds between two steps *)

Lemma listener_shows_code ev st :
  shows_code st → shows_code (CodeEditor.listener ev st).
Proof.
  intros Hst. pose proof Hst as [Hs Hv].
  assert (Hcb : ∀ newCode operation from,
            shows_code (CodeEditor.onCodeChange newCode operation from st)).
  { intros newCode operation from.
    destruct (decide (from = "self")) as [-> | Hfrom]; [done |].
    destruct (CodeEditor.editorRef st) as [old |] eqn:Hed.
    - rewrite onCodeChange_applies by (rewrite ?Hed; eauto).
      split; simpl; [done |]. by intros v [= <-].
    - by rewrite onCodeChange_unmounted. }
  destruct ev; simpl; try done; apply Hcb.
Qed.

Lemma setValue_shows_code v st :
  shows_code st → shows_code (CodeEditor.setValue v st).
Proof.
  intros [Hs Hv]. split; [by rewrite setValue_suppress |].
  destruct (CodeEditor.editorRef st) as [old |] eqn:Hed.
  - destruct (setValue_shows v st Hs) as [He Hc]; [rewrite Hed; eauto |].
    rewrite He, Hc. by intros w [= <-].
  - rewrite setValue_unmounted by done. rewrite Hed. done.
Qed.

Lemma mount_shows tpl st :
  CodeEditor.suppressNextChangeRef st = false →
  CodeEditor.editorRef (CodeEditor.mount tpl st) = Some tpl ∧
  CodeEditor.code (CodeEditor.mount tpl st) = tpl.
Proof.
  intros Hs. unfold CodeEditor.mount. simpl.
  destruct (setValue_shows tpl (CodeEditor.set_editor (Some "") st))
    as [He _]; simpl; eauto.
Qed.

(** The effect turns an editor that shows its [code] state into a
    settled one. *)
Lemma templateEffect_settles tpl before st :
  (∀ v, CodeEditor.editorRef before = Some v →
        v = CodeEditor.code before ∧ (v = "" → tpl = "")) →
  shows_code st →
  let st' := CodeEditor.templateEffect tpl before st in
  CodeEditor.suppressNextChangeRef st' = false ∧
  ∀ v, CodeEditor.editorRef st' = Some v →
       v = CodeEditor.code st' ∧ (v = "" → tpl = "").
Proof.
  intros Hb [Hs Hv]. cbv zeta. rewrite templateEffect_suppress.
  split; [done |]. unfold CodeEditor.templateEffect.
  destruct (bool_decide (is_Some (CodeEditor.editorRef st))) eqn:Hed.
  2:{ simpl. intros v Hv'. apply bool_decide_eq_false_1 in Hed.
      destruct Hed. eauto. }
  apply bool_decide_eq_true_1 in Hed.
  destruct (bool_decide (CodeEditor.code st = "")) eqn:Hc.
  2:{ simpl. intros v Hv'. apply bool_decide_eq_false_1 in Hc.
      specialize (Hv v Hv'). subst v. done. }
  apply bool_decide_eq_true_1 in Hc. cbn [andb].
  destruct (negb (bool_decide (is_Some (CodeEditor.editorRef before)))
            || negb (bool_decide (CodeEditor.code before = CodeEditor.code st)))
    eqn:Hdep.
  - destruct (setValue_shows tpl (CodeEditor.setCode tpl st)) as [He Hc'];
      [done | done |].
    rewrite He, Hc'. intros v [= <-]. done.
  - apply orb_false_elim in Hdep as [Hb1 Hb2].
    apply negb_false_iff, bool_decide_eq_true_1 in Hb1, Hb2.
    destruct Hb1 as [old Hold]. destruct (Hb old Hold) as [Ho Ht].
    intros v Hv'. specialize (Hv v Hv'). split; [done |].
    intros _. apply Ht. congruence.
Qed.

Lemma editor_after_settled f c :
  settled c → shows_code (f (editor c)) →
  CodeEditor.suppressNextChangeRef (editor_after f c) = false ∧
  ∀ v, CodeEditor.editorRef (editor_after f c) = Some v →
       v = CodeEditor.code (editor_after f c) ∧ (v = "" → template c = "").
Proof.
  intros [Hs Hv] Hf. by apply templateEffect_settles.
Qed.

Lemma settled_shows_code c : settled c → shows_code (editor c).
Proof. intros [Hs Hv]. split; [done |]. intros v H. by apply Hv. Qed.


Lemma step_settled a c : settled c → settled (step a c).
Proof.
  intros Hc. pose proof Hc as [Hs Hv].
  destruct a as [ev | tm | v | v | | | now]; try exact Hc.
  - apply (editor_after_settled (CodeEditor.listener ev) c Hc).
    by apply listener_shows_code, settled_shows_code.
  - destruct tm; simpl; try exact Hc.
    + unfold settled, CodeEditor.lastChangeFired. simpl.
      by case_match.
    + repeat case_match; done.
  - apply (editor_after_settled (CodeEditor.userEdit v) c Hc).
    by apply setValue_shows_code, settled_shows_code.
  - simpl. destruct (CodeEditor.editorRef (editor c)) eqn:Hed; [exact Hc |].
    apply (editor_after_settled (CodeEditor.mount (template c)) c Hc).
    destruct (mount_shows (template c) (editor c) Hs) as [He Hcode].
    split; [by rewrite mount_suppress |].
    rewrite He, Hcode. by intros w [= <-].
Qed.


Lemma run_settled acts c : settled c → settled (run acts c).
Proof.
  intros Hc. induction acts as [| a acts IH] using rev_ind; [done |].
  unfold run in *. rewrite foldl_app. simpl. by apply step_settled.
Qed.

Lemma loading_settled sid tpl : settled (loading sid tpl).
Proof. split; [done |]. intros v H. discriminate. Qed.

Lemma step_suppress a c :
  CodeEditor.suppressNextChangeRef (editor (step a c)) =
  CodeEditor.suppressNextChangeRef (editor c).
Proof.
  destruct a as [ev | tm | v | v | | | now]; try done.
  - simpl. unfold editor_after.
    by rewrite templateEffect_suppress, listener_suppress.
  - destruct tm; simpl; try done.
    + unfold CodeEditor.lastChangeFired. by case_match.
    + repeat case_match; done.
  - simpl. unfold editor_after.
    rewrite templateEffect_suppress. apply setValue_suppress.
  - simpl. case_match; [done |]. simpl. unfold editor_after.
    by rewrite templateEffect_suppress, mount_suppress.
Qed.

(** An event that its listener ignores leaves editor and wire alone. *)
Lemma quiet_turn f c :
  f (editor c) = editor c →
  editor_after f c = editor c ∧ world_after f c = world c.
Proof.
  intros Hf.
  assert (He : editor_after f c = editor c).
  { unfold editor_after. rewrite Hf. apply templateEffect_same. }
  split; [exact He |].
  unfold world_after, notifications. rewrite He.
  by rewrite drop_all.
Qed.

(** C1, as stated, fails on the hook's copy of the document: the echo
    of a local edit, marked ["self"], overwrites [codeState], which held
    the document of the last sync. *)
Lemma self_echo_overwrites_codeState : ¬ self_echo_leaves_document.
Proof.
  intros H.
  destruct (H "ABCDEF" "t"
              [Mount; Inbound (CodeSync "x=1"); Edit "y=3";
               Timer (CodeChangeDebounce 7)]
              "y=3" "edit") as [Hc _].
  vm_compute in Hc. discriminate.
Qed.

(** A local edit is sent at once by the page and once more by the
    editor's timer; neither send sets the guard, and an echo that is not
    marked ["self"] is then written into the editor. *)
Example local_send_does_not_arm :
  let c0 := step (Tick 5) (start "ABCDEF" "t") in
  let c1 := run [Edit "y=3"; Timer (CodeChangeDebounce 7)] c0 in
  let c2 := deliver (CodeChange "y=3 " "edit" "srv") c1 in
  SocketService.sent (Dispatcher.svc (world c1)) =
    SocketService.sent (Dispatcher.svc (world c0)) ++
    [("code-change", PCodeChange "ABCDEF" "y=3" "edit" 5);
     ("code-change", PCodeChange "ABCDEF" "y=3" "edit" 7)] ∧
  CodeEditor.suppressNextChangeRef (editor c1) = false ∧
  CodeEditor.editorRef (editor c2) = Some "y=3 ".
Proof. vm_compute. done. Qed.

(** C1, amended.  In every state the page reaches, a [code-change]
    event whose [from] is ["self"] leaves the editor as it was (its
    text, its [code] state and the guard) and nothing is sent, while the
    hook's [codeState] is set to the event's code all the same.  No
    local send arms the guard: it is clear in every state the page
    reaches between two events, being set only while a remote change is
    written into the editor, so the echo is skipped by its mark alone
    and there is nothing to disarm. *)
Theorem self_echo_skipped_by_editor (sid template : string)
    (acts : list action) (newCode operation : string) :
  let c := run acts (loading sid template) in
  let c' := deliver (CodeChange newCode operation "self") c in
  editor c' = editor c ∧
  world c' = world c ∧
  SessionSocket.codeState (sess c') = newCode ∧
  CodeEditor.suppressNextChangeRef (editor c) = false ∧
  CodeEditor.suppressNextChangeRef (editor c') = false.
Proof.
  cbv zeta.
  set (c := run acts (loading sid template)).
  assert (Hc : settled c) by apply run_settled, loading_settled.
  destruct (quiet_turn (CodeEditor.listener
                          (CodeChange newCode operation "self")) c)
    as [He Hw]; [done |].
  change (editor (deliver (CodeChange newCode operation "self") c))
    with (editor_after (CodeEditor.listener
                          (CodeChange newCode operation "self")) c).
  change (world (deliver (CodeChange newCode operation "self") c))
    with (world_after (CodeEditor.listener
                         (CodeChange newCode operation "self")) c).
  rewrite He, Hw. split_and!; try done; apply Hc.
Qed.


(** The editor then mounts with the template, not with the document. *)
Example mount_after_sync_shows_template :
  let c := run [Inbound (CodeSync "x=1"); Mount] (loading "ABCDEF" "t") in
  SessionSocket.codeState (sess c) = "x=1" ∧
  CodeEditor.editorRef (editor c) = Some "t" ∧
  CodeEditor.code (editor c) = "t".
Proof. vm_compute. done. Qed.

(** The sync of an empty document: the editor puts the template back,
    and page and editor send it as a change of their own. *)
Example sync_of_empty_document :
  let c0 := step (Tick 5) (start "ABCDEF" "t") in
  let c := run [Inbound (CodeSync ""); Timer (CodeChangeDebounce 7)] c0 in
  SessionSocket.codeState (sess c) = "" ∧
  CodeEditor.editorRef (editor c) = Some "t" ∧
  SocketService.sent (Dispatcher.svc (world c)) =
    SocketService.sent (Dispatcher.svc (world c0)) ++
    [("code-change", PCodeChange "ABCDEF" "t" "edit" 5);
     ("code-change", PCodeChange "ABCDEF" "t" "edit" 7)].
Proof. vm_compute. done. Qed.


(** The scenario of the specification: a sync, then a remote change. *)
Example sync_then_remote_change :
  let c := run [Inbound (CodeSync "x=1");
                Inbound (CodeChange "x=2" "edit" "other")]
               (start "ABCDEF" "t") in
  SessionSocket.codeState (sess c) = "x=2" ∧
  CodeEditor.editorRef (editor c) = Some "x=2".
Proof. vm_compute. done. Qed.

End DocumentClaims.

(** ** Typing indicators and the chat log *)

Module PresenceClaims.
Import Client Stated.

(** Only a [typing-status-update] event changes the typing set. *)
Lemma step_typingUsers a c :
  (∀ U b, a ≠ Inbound (TypingStatusUpdate U b)) →
  SessionSocket.typingUsers (sess (step a c)) =
  SessionSocket.typingUsers (sess c).
Proof.
  intros Hne. destruct a as [ev | tm | v | v | | | now]; simpl; try done.
  - destruct ev; simpl; try done. by destruct (Hne uname isTyping).
  - destruct tm; simpl; try done. by repeat case_match.
  - by case_match.
Qed.

Lemma timers_typingUsers tms c :
  SessionSocket.typingUsers (sess (run (Timer <$> tms) c)) =
  SessionSocket.typingUsers (sess c).
Proof.
  revert c. induction tms as [| tm tms IH]; intros c; simpl; [done |].
  rewrite IH. by apply (step_typingUsers (Timer tm)).
Qed.

Lemma step_keeps_typing a c U :
  a ≠ Inbound (TypingStatusUpdate U false) →
  U ∈ SessionSocket.typingUsers (sess c) →
  U ∈ SessionSocket.typingUsers (sess (step a c)).
Proof.
  intros Hne Hin.
  destruct a as [ev | tm | v | v | | | now];
    try (rewrite step_typingUsers by done; exact Hin).
  destruct ev; try (rewrite step_typingUsers by done; exact Hin).
  simpl. destruct isTyping.
  - set_solver.
  - assert (uname ≠ U) by congruence. set_solver.
Qed.

(** C6, as stated, fails: after [typing-status-update{isTyping:true}]
    for a user, no run of local timers removes the user. *)
Lemma typing_flag_never_expires : ¬ typing_flag_expires.
Proof.
  intros H. destruct (H (start "ABCDEF" "") "bob") as [tms Hout].
  apply Hout. rewrite timers_typingUsers. simpl. set_solver.
Qed.

(** C6, amended.  A user in the typing set stays in it through every
    step of the page other than a [typing-status-update{isTyping:false}]
    event for that user; the local timers leave the typing set as it
    is.  The 3-second timer of [ChatWindow] clears the local user's own
    [isTyping] flag. *)
Theorem typing_flag_cleared_by_event_only (c : Client.t) (U : string)
    (acts : list action) :
  U ∈ SessionSocket.typingUsers (sess c) →
  Inbound (TypingStatusUpdate U false) ∉ acts →
  U ∈ SessionSocket.typingUsers (sess (run acts c)) ∧
  (∀ tms, SessionSocket.typingUsers (sess (run (Timer <$> tms) c)) =
          SessionSocket.typingUsers (sess c)) ∧
  (∀ h, ChatWindow.typingTimeoutRef h = true →
        ChatWindow.isTyping (ChatWindow.typingTimeoutFired h) = false) ∧
  U ∉ SessionSocket.typingUsers
        (sess (deliver (TypingStatusUpdate U false) c)).
Proof.
  intros Hin Hnot. split_and!.
  - revert c Hin Hnot. induction acts as [| a acts IH]; intros c Hin Hnot.
    + done.
    + apply not_elem_of_cons in Hnot as [Hne Hnot]. simpl.
      apply IH; [| done]. apply step_keeps_typing; [congruence | done].
  - intros tms. apply timers_typingUsers.
  - intros h Ht. unfold ChatWindow.typingTimeoutFired. by rewrite Ht.
  - simpl. rewrite elem_of_difference, elem_of_singleton. tauto.
Qed.

Lemma typing_flag_cleared_by_event_only_witness :
  let c := deliver (TypingStatusUpdate "bob" true) (start "ABCDEF" "") in
  let acts := [Timer ChatTypingTimeout; Timer EditorTypingTimeout;
               Timer (CodeChangeDebounce 7)] in
  "bob" ∈ SessionSocket.typingUsers (sess c) ∧
  (Inbound (TypingStatusUpdate "bob" false) ∉ acts) ∧
  "bob" ∈ SessionSocket.typingUsers (sess (run acts c)).
Proof.
  assert (Hin : "bob" ∈ SessionSocket.typingUsers
                  (sess (deliver (TypingStatusUpdate "bob" true)
                           (start "ABCDEF" "")))).
  { simpl. set_solver. }
  assert (Hnot : Inbound (TypingStatusUpdate "bob" false) ∉
                 [Timer ChatTypingTimeout; Timer EditorTypingTimeout;
                  Timer (CodeChangeDebounce 7)]).
  { rewrite !not_elem_of_cons. split_and!; try discriminate.
    apply not_elem_of_nil. }
  simpl. split_and!; [exact Hin | exact Hnot |].
  exact (proj1 (typing_flag_cleared_by_event_only _ "bob" _ Hin Hnot)).
Defined.

End PresenceClaims.

Module ChatClaims.
Import Client Stated.

Lemma known_spec (history : list chat_message) (m : chat_message) :
  ChatWindow.known history m = true ↔ msg_id m ∈ msg_id <$> history.
Proof.
  unfold ChatWindow.known. induction history as [| x l IH]; simpl.
  - rewrite elem_of_nil. split; [discriminate | done].
  - rewrite orb_true_iff, IH, elem_of_cons, bool_decide_eq_true.
    split; intros [H | H]; auto.
Qed.

Lemma known_app_l (history extra : list chat_message) (m : chat_message) :
  ChatWindow.known history m = true →
  ChatWindow.known (history ++ extra) m = true.
Proof.
  rewrite !known_spec, fmap_app, elem_of_app. auto.
Qed.

Lemma filter_known_nil (history ms : list chat_message) :
  Forall (λ m, ChatWindow.known history m = true) ms →
  filter (λ m, ChatWindow.known history m = false) ms = [].
Proof.
  induction 1 as [| m ms Hm _ IH]; [done |].
  rewrite filter_cons. case_decide as Hk; [congruence | exact IH].
Qed.

(** One more message in the [messages] prop of a window whose history
    already covers the others. *)
Lemma historyEffect_one (ms : list chat_message) (m : chat_message)
    (h : ChatWindow.state) :
  Forall (λ x, ChatWindow.known (ChatWindow.messageHistory h) x = true) ms →
  ChatWindow.messageHistory (ChatWindow.historyEffect (ms ++ [m]) h) =
  if ChatWindow.known (ChatWindow.messageHistory h) m
  then ChatWindow.messageHistory h
  else ChatWindow.messageHistory h ++ [m].
Proof.
  intros Hall. unfold ChatWindow.historyEffect.
  rewrite bool_decide_eq_true_2 by (rewrite length_app; simpl; lia).
  rewrite filter_app, filter_known_nil by done. simpl.
  rewrite filter_cons, filter_nil.
  destruct (ChatWindow.known (ChatWindow.messageHistory h) m) eqn:Hk.
  - rewrite decide_False by congruence. simpl. done.
  - rewrite decide_True by done. simpl. done.
Qed.

Lemma deliver_chat_in_step (ev : inbound) (c : Client.t) :
  chat_in_step c → chat_in_step (deliver ev c).
Proof.
  intros (h & Hc & Hall & Hnd).
  destruct ev; try (exists h; simpl; split_and!; done).
  unfold chat_in_step, deliver. simpl. rewrite Hc. simpl.
  eexists. split; [reflexivity |].
  pose proof (historyEffect_one _ m h Hall) as Hh.
  destruct (ChatWindow.known (ChatWindow.messageHistory h) m) eqn:Hk;
    rewrite Hh; split.
  - apply Forall_app. split; [done |]. by apply Forall_singleton.
  - done.
  - apply Forall_app. split.
    + eapply Forall_impl; [exact Hall |]. intros x. apply known_app_l.
    + apply Forall_singleton. apply known_spec.
      rewrite fmap_app, elem_of_app. right. simpl.
      apply list_elem_of_singleton. done.
  - rewrite fmap_app. apply NoDup_app. split_and!.
    + done.
    + intros x Hx Hx'. simpl in Hx'.
      apply list_elem_of_singleton in Hx'. subst x.
      apply known_spec in Hx. congruence.
    + apply NoDup_singleton.
Qed.

Lemma start_chat_in_step sid template : chat_in_step (start sid template).
Proof.
  exists ChatWindow.init. split_and!; [done | apply Forall_nil_2 |].
  apply NoDup_nil_2.
Qed.

Lemma run_inbound_chat_in_step (evs : list inbound) (c : Client.t) :
  chat_in_step c → chat_in_step (run (Inbound <$> evs) c).
Proof.
  revert c. induction evs as [| ev evs IH]; intros c Hc; simpl; [done |].
  apply IH. by apply deliver_chat_in_step.
Qed.

(** C7, as stated, fails for the hook's log: a message whose id is
    already logged is appended again. *)
Lemma hook_log_keeps_duplicates : ¬ chat_log_appends_iff_new.
Proof.
  intros H.
  specialize (H (SessionSocket.listener (ChatMessage (msg 2))
                   SessionSocket.init) (msg 2)).
  vm_compute in H. discriminate.
Qed.

(** The ids [1,2,2,3] in the hook's log and, with the chat window
    shown throughout, in its history. *)
Example chat_ids_1223 :
  let c := run (Inbound <$> (ChatMessage <$> [msg 1; msg 2; msg 2; msg 3]))
               (start "ABCDEF" "") in
  msg_id <$> SessionSocket.chatMessages (sess c) = [1; 2; 2; 3]%Z ∧
  (λ h, msg_id <$> ChatWindow.messageHistory h) <$> chat c =
    Some [1; 2; 3]%Z.
Proof. vm_compute. done. Qed.

(** C7, amended.  The session hook appends every arriving chat
    message to [chatMessages], whatever its id.  The de-duplication is
    that of the history effect of [ChatWindow]: with the window shown
    and the effect run after each arrival, a message enters
    [messageHistory] if and only if no entry of the history shares its
    id, and no id occurs twice in the history. *)
Theorem chat_history_dedups (sid template : string) (evs : list inbound)
    (m : chat_message) :
  let c := run (Inbound <$> evs) (start sid template) in
  let c' := deliver (ChatMessage m) c in
  SessionSocket.chatMessages (sess c') =
    SessionSocket.chatMessages (sess c) ++ [m] ∧
  ∃ h h', chat c = Some h ∧ chat c' = Some h' ∧
    ChatWindow.messageHistory h' =
      (if bool_decide (msg_id m ∈ msg_id <$> ChatWindow.messageHistory h)
       then ChatWindow.messageHistory h
       else ChatWindow.messageHistory h ++ [m]) ∧
    NoDup (msg_id <$> ChatWindow.messageHistory h').
Proof.
  intros c c'. split; [done |].
  pose proof (run_inbound_chat_in_step evs _ (start_chat_in_step sid template))
    as Hc.
  fold c in Hc.
  pose proof (deliver_chat_in_step (ChatMessage m) c Hc) as (h' & Hc' & _ & Hnd').
  destruct Hc as (h & Hch & Hall & Hnd).
  exists h, h'. split_and!; [done | done | | done].
  subst c'. simpl in Hc'. rewrite Hch in Hc'. simpl in Hc'.
  injection Hc' as <-. rewrite historyEffect_one by done.
  destruct (ChatWindow.known (ChatWindow.messageHistory h) m) eqn:Hk.
  - rewrite bool_decide_eq_true_2; [done |]. by apply known_spec.
  - rewrite bool_decide_eq_false_2; [done |].
    rewrite <- known_spec. congruence.
Qed.

End ChatClaims.

(** ** Connection failures *)

Module ConnectionClaims.
Import SocketService Dispatcher UseSocket Stated.





Lemma boot_socket :
  socket (svc boot) =
  Some {| connected := false;
          options := {| timeout := 20000; forceNew := true;
                        reconnection := true; reconnectionDelay := 1000;
                        reconnectionAttempts := 5 |};
          calls := [SockOn "custom:connected" cb_connected;
                    SockOn "custom:disconnected" cb_disconnected;
                    SockOn "custom:reconnected" cb_reconnected;
                    SockOn "custom:connect_error" cb_connect_error;
                    SockOn "custom:auth-success" cb_auth_success;
                    SockOn "custom:auth-error" cb_auth_error] |}.
Proof. vm_compute. reflexivity. Qed.








(** Five failures in a row, then the transport gives up. *)
Example five_connect_errors :
  let w := Transport.run body None
             (replicate 5 (TConnectError "timeout") ++ [TReconnectFailed])
             boot in
  connectionStatus (ui w) = "error" ∧
  reconnectAttempts (svc w) = 5%nat ∧
  toasts w = [unable_to_connect;
              "Failed to reconnect. Please refresh the page."].
Proof. vm_compute. split_and!; reflexivity. Qed.

End ConnectionClaims.

(** ** More about the service *)

Module ServiceProps.
Import SocketService Dispatcher DispatcherFacts ServiceMore.

Lemma set_delete_add_fresh (cb : callback) (l : list callback) :
  cb ∉ l → set_delete cb (set_add cb l) = l.
Proof.
  intros Hnin. unfold set_add, set_delete. rewrite decide_False by done.
  rewrite filter_app, filter_cons, filter_nil, decide_False by tauto.
  rewrite app_nil_r. induction l as [| x l IH]; [done |].
  apply not_elem_of_cons in Hnin as [Hne Hnin].
  rewrite filter_cons, decide_True by done. by rewrite IH.
Qed.

Lemma off_on_listeners (s : t) (eventName : string) (cb : callback) :
  is_Some (socket s) →
  cb ∉ listeners eventName s →
  ∀ e, listeners e (off eventName cb (on eventName cb s)) = listeners e s.
Proof.
  intros Hs Hfresh e.
  rewrite off_listeners by (by apply on_socket).
  rewrite on_listeners by done.
  case_decide; [subst e | done]. by apply set_delete_add_fresh.
Qed.

(** X1.  Unsubscribing undoes a subscription: after [on] of a callback
    not yet registered for the event and [off] of the same pair, every
    event has its listeners back, in their order. *)
Theorem off_undoes_on (s : t) (eventName : string) (cb : callback) :
  is_Some (socket s) →
  cb ∉ listeners eventName s →
  ∀ e, listeners e (off eventName cb (on eventName cb s)) = listeners e s.
Proof. apply off_on_listeners. Qed.

Lemma off_undoes_on_witness :
  let s := on "code-sync" 7 (connect new) in
  is_Some (socket s) ∧ (8 ∉ listeners "code-sync" s) ∧
  listeners "code-sync" (off "code-sync" 8 (on "code-sync" 8 s)) = [7].
Proof.
  assert (Hs : is_Some (socket (on "code-sync" 7 (connect new))))
    by (vm_compute; eauto).
  assert (Hf : 8 ∉ listeners "code-sync" (on "code-sync" 7 (connect new))).
  { vm_compute. intros H. apply list_elem_of_singleton in H. discriminate. }
  simpl. split_and!; [exact Hs | exact Hf |].
  exact (off_undoes_on _ "code-sync" 8 Hs Hf "code-sync").
Defined.

(** X2.  [off] revokes one registration and no other: the callbacks of
    the other events, and the other callbacks of the same event, stay
    registered in their order. *)
Theorem off_keeps_siblings (s : t) (eventName : string) (cb : callback) :
  is_Some (socket s) →
  (cb ∉ listeners eventName (off eventName cb s)) ∧
  (∀ e, e ≠ eventName →
        listeners e (off eventName cb s) = listeners e s) ∧
  (∀ c, c ≠ cb →
        (c ∈ listeners eventName (off eventName cb s) ↔
         c ∈ listeners eventName s)) ∧
  listeners eventName (off eventName cb s) `sublist_of` listeners eventName s.
Proof.
  intros Hs. split_and!.
  - rewrite off_listeners, decide_True by done.
    rewrite set_delete_elem. tauto.
  - intros e He. by rewrite off_listeners, decide_False.
  - intros c Hc. rewrite off_listeners, decide_True by done.
    rewrite set_delete_elem. tauto.
  - rewrite off_listeners, decide_True by done. apply sublist_filter.
Qed.

Lemma off_keeps_siblings_witness :
  let s := on "e" 2 (on "e" 1 (connect new)) in
  is_Some (socket s) ∧ (1 ∉ listeners "e" (off "e" 1 s)) ∧
  (2 ∈ listeners "e" (off "e" 1 s) ↔ 2 ∈ listeners "e" s).
Proof.
  assert (Hs : is_Some (socket (on "e" 2 (on "e" 1 (connect new)))))
    by (vm_compute; eauto).
  destruct (off_keeps_siblings _ "e" 1 Hs) as (H1 & _ & H2 & _).
  simpl. split_and!; [exact Hs | exact H1 |].
  apply H2. discriminate.
Defined.

(** X3.  [removeAllListeners] empties the event's set and leaves the
    other events alone, so a later [emit] of the event calls nobody;
    without a socket it removes nothing. *)
Theorem removeAllListeners_clears {Ui Data : Type}
    (body : callback → Data → Ui → outcome Ui)
    (w : World) (eventName : string) (d : Data) :
  let s' := removeAllListeners eventName (svc w) in
  match socket (svc w) with
  | Some _ =>
      listeners eventName s' = [] ∧
      emit body eventName d (with_svc s' w) = Returned (with_svc s' w)
  | None => s' = svc w
  end ∧
  ∀ e, e ≠ eventName → listeners e s' = listeners e (svc w).
Proof.
  unfold removeAllListeners, listeners, emit.
  destruct (socket (svc w)) as [sk |] eqn:Hs; simpl.
  - rewrite lookup_delete_eq. split_and!; [done | done |].
    intros e He. by rewrite lookup_delete_ne.
  - done.
Qed.

Lemma removeAllListeners_clears_witness :
  let w := UseSocket.boot in
  "custom:connected" ≠ "custom:error" ∧
  SocketService.listeners "custom:connected"
    (removeAllListeners "custom:error" (svc w)) =
  SocketService.listeners "custom:connected" (svc w).
Proof.
  cbv zeta.
  assert (Hne : "custom:connected" ≠ "custom:error") by discriminate.
  split; [exact Hne |].
  exact (proj2 (removeAllListeners_clears UseSocket.body UseSocket.boot
                  "custom:error" NoData) _ Hne).
Defined.

(** X4.  [disconnect()] on a service with a socket drops the socket,
    clears the flag and forgets every listener; from then on it is idle:
    a second [disconnect], [on], [off], [removeAllListeners] and the
    senders change nothing, and [joinSession] returns [false]. *)
Theorem disconnect_resets (s : t) :
  is_Some (socket s) →
  let s' := disconnect s in
  socket s' = None ∧ isConnected s' = false ∧ eventListeners s' = ∅ ∧
  disconnect s' = s' ∧
  (∀ e cb, on e cb s' = s' ∧ off e cb s' = s') ∧
  (∀ e, removeAllListeners e s' = s') ∧
  (∀ e p, send e p s' = s') ∧
  (∀ sid u, joinSession sid u s' = (false, s')).
Proof.
  intros [sk Hs]. unfold disconnect. rewrite Hs. simpl.
  split_and!; try done.
Qed.

Lemma disconnect_resets_witness :
  is_Some (socket (on "e" 1 (connect new))) ∧
  eventListeners (disconnect (on "e" 1 (connect new))) = ∅.
Proof.
  assert (Hs : is_Some (socket (on "e" 1 (connect new))))
    by (vm_compute; eauto).
  split; [exact Hs |].
  exact (proj1 (proj2 (proj2 (disconnect_resets _ Hs)))).
Defined.

Lemma joinSession_spec (s : t) (sessionId : string) (u : user) :
  let r := joinSession sessionId u s in
  r.1 = socket_connected s ∧
  sent r.2 = sent s ++
    (if socket_connected s
     then [("join-session", PJoinSession sessionId u)] else []) ∧
  eventListeners r.2 = eventListeners s ∧
  (if socket_connected s then True else r.2 = s).
Proof.
  unfold joinSession, socket_connected, sent, send.
  destruct u as [i n p]. simpl.
  destruct (socket s) as [sk |] eqn:Hs; simpl.
  - destruct (connected sk) eqn:Hc; simpl.
    + unfold emitted. simpl. by rewrite omap_app.
    + rewrite Hs. by rewrite app_nil_r.
  - rewrite Hs. done.
Qed.

(** X5.  [joinSession] answers [true] exactly when the socket is
    connected; it then writes one [join-session] message carrying the
    session id and the user's id, username and profile, and otherwise
    leaves the service as it was. *)
Theorem joinSession_result (s : t) (sessionId : string) (u : user) :
  let r := joinSession sessionId u s in
  r.1 = socket_connected s ∧
  sent r.2 = sent s ++
    (if socket_connected s
     then [("join-session", PJoinSession sessionId u)] else []) ∧
  eventListeners r.2 = eventListeners s ∧
  (if socket_connected s then True else r.2 = s).
Proof. apply joinSession_spec. Qed.

Lemma send_socket_connected e p s :
  socket_connected (send e p s) = socket_connected s.
Proof.
  unfold send, socket_connected.
  destruct (socket s) as [sk |] eqn:Hs; simpl; [| by rewrite Hs].
  destruct (connected sk) eqn:Hc; simpl; [done | by rewrite Hs].
Qed.

Lemma send_isConnected e p s : isConnected (send e p s) = isConnected s.
Proof.
  unfold send. destruct (socket s) as [sk |]; [| done].
  by destruct (connected sk).
Qed.


End ServiceProps.

(** ** More about the transport handlers *)

Module TransportProps.
Import SocketService Dispatcher DispatcherFacts ServiceMore ServiceProps.

Section Handlers.
Context {Ui : Type}.
Variable body : callback → cdata → Ui → outcome Ui.
Variable the_user : option user.

Lemma emit_svc e d (w : @World Ui cdata) :
  svc (final (emit body e d w)) = svc w.
Proof.
  destruct (emit_returns body e d w) as (w' & -> & Hs & _). exact Hs.
Qed.

(** The subscribers of the service's events have no hand in what a
    transport event does to the service. *)
Lemma handle_svc (ev : transport_event) (w : @World Ui cdata) :
  svc (final (Transport.handle body the_user ev w)) =
  service_effect the_user ev (svc w).
Proof.
  unfold Transport.handle, service_effect.
  destruct ev; cbv beta iota zeta;
    try (rewrite emit_svc; destruct w; reflexivity).
  - destruct (emit_returns body "custom:disconnected" (Reason reason)
                (with_svc (with_isConnected false
                   (svc (with_svc (Transport.socket_follows
                                     (TDisconnect reason) (svc w)) w)))
                   (with_svc (Transport.socket_follows
                                (TDisconnect reason) (svc w)) w)))
      as (w' & Hemit & Hs & _).
    rewrite Hemit. simpl. case_decide; simpl; rewrite Hs; destruct w; done.
  - rewrite emit_svc. destruct w. simpl. by case_decide.
Qed.


(** X6.  On every [connect] event of its socket the service sets
    [isConnected], restarts the failure counter and, when it has a
    user, writes one [authenticate] message with the user's id,
    username and profile; it writes nothing else. *)
Theorem connect_event_authenticates (w : @World Ui cdata) :
  is_Some (socket (svc w)) →
  let s' := svc (final (Transport.handle body the_user TConnect w)) in
  isConnected s' = true ∧ socket_connected s' = true ∧
  reconnectAttempts s' = 0 ∧
  eventListeners s' = eventListeners (svc w) ∧
  sent s' = sent (svc w) ++
    match the_user with
    | Some u => [("authenticate",
                  PAuthenticate (user_id u) (username u) (profile u))]
    | None => []
    end.
Proof.
  intros [sk Hs]. cbv zeta. rewrite handle_svc.
  unfold service_effect, Transport.socket_follows. rewrite Hs.
  destruct the_user as [u |]; simpl.
  - unfold authenticate, send, sent, emitted. simpl. rewrite Hs.
    split_and!; try done. by rewrite omap_app.
  - unfold sent. simpl. rewrite Hs. split_and!; try done.
    by rewrite app_nil_r.
Qed.

(** X7.  On a [disconnect] event the service clears [isConnected] and
    writes nothing; it asks the socket to connect again, once, exactly
    when the reason is ["io server disconnect"]. *)
Theorem disconnect_event_reconnects (w : @World Ui cdata) (reason : string) :
  is_Some (socket (svc w)) →
  let s' := svc (final (Transport.handle body the_user
                          (TDisconnect reason) w)) in
  isConnected s' = false ∧ socket_connected s' = false ∧
  sent s' = sent (svc w) ∧
  reconnectAttempts s' = reconnectAttempts (svc w) ∧
  connect_calls s' =
    (connect_calls (svc w) +
     if decide (reason = "io server disconnect") then 1 else 0)%nat.
Proof.
  intros [sk Hs]. cbv zeta. rewrite handle_svc.
  unfold service_effect, Transport.socket_follows. rewrite Hs.
  unfold connect_calls, sent, emitted. rewrite Hs.
  case_decide; simpl; split_and!; try done;
    rewrite ?omap_app, ?filter_app, ?length_app; simpl;
    rewrite ?app_nil_r; try done; lia.
Qed.




End Handlers.

Lemma connect_event_authenticates_witness :
  is_Some (socket (svc UseSocket.boot)) ∧
  sent (svc (final (Transport.handle UseSocket.body
                      (Some (User "u1" "alice" "p")) TConnect
                      UseSocket.boot))) =
  sent (svc UseSocket.boot) ++
    [("authenticate", PAuthenticate "u1" "alice" "p")].
Proof.
  assert (Hs : is_Some (socket (svc UseSocket.boot))) by (vm_compute; eauto).
  split; [exact Hs |].
  exact (proj2 (proj2 (proj2 (proj2
           (connect_event_authenticates UseSocket.body
              (Some (User "u1" "alice" "p")) UseSocket.boot Hs))))).
Defined.

Lemma disconnect_event_reconnects_witness :
  is_Some (socket (svc Stated.connected_world)) ∧
  connect_calls
    (svc (final (Transport.handle UseSocket.body None
                   (TDisconnect "io server disconnect")
                   Stated.connected_world))) =
  (connect_calls (svc Stated.connected_world) + 1)%nat.
Proof.
  assert (Hs : is_Some (socket (svc Stated.connected_world)))
    by (vm_compute; eauto).
  split; [exact Hs |].
  exact (proj2 (proj2 (proj2 (proj2
           (disconnect_event_reconnects UseSocket.body None
              Stated.connected_world "io server disconnect" Hs))))).
Defined.


End TransportProps.

(** ** More about [useSocket] *)

Module HookProps.
Import SocketService Dispatcher DispatcherFacts ServiceProps EventListeners.

Lemma registry_add_lookup (m : gmap string (list callback)) e e' c :
  default [] (alter (set_add c) e'
                (if decide (is_Some (m !! e')) then m else <[e' := []]> m)
              !! e) =
  if decide (e = e') then set_add c (default [] (m !! e))
  else default [] (m !! e).
Proof.
  destruct (decide (e = e')) as [-> | He].
  - rewrite lookup_alter_eq. case_decide as Hsome.
    + destruct Hsome as [l Hl]. by rewrite Hl.
    + rewrite lookup_insert_eq. simpl.
      apply eq_None_not_Some in Hsome. by rewrite Hsome.
  - rewrite lookup_alter_ne by done.
    case_decide; [done |]. by rewrite lookup_insert_ne.
Qed.

Lemma registry_delete_lookup (m : gmap string (list callback)) e e' c :
  default [] ((if decide (is_Some (m !! e'))
               then alter (set_delete c) e' m else m) !! e) =
  if decide (e = e') then set_delete c (default [] (m !! e))
  else default [] (m !! e).
Proof.
  destruct (decide (e = e')) as [-> | He].
  - case_decide as Hsome.
    + rewrite lookup_alter_eq. destruct Hsome as [l Hl]. by rewrite Hl.
    + apply eq_None_not_Some in Hsome. by rewrite Hsome.
  - case_decide; [| done]. by rewrite lookup_alter_ne.
Qed.

(** X10.  The function [addEventListener] returns revokes what the call
    registered: for a callback that was not registered for the event,
    subscribing adds it to the service and to [listenersRef], and
    calling the returned function restores the listeners of every event
    in both.  When the hook has no socket, nothing is registered and the
    returned function does nothing. *)
Theorem addEventListener_cleanup (h : hook) (eventName : string)
    (cb : callback) :
  is_Some (socket (svc (base h))) →
  cb ∉ listeners eventName (svc (base h)) →
  cb ∉ remembered eventName h →
  let r := addEventListener eventName cb h in
  if UseSocket.socketRef (ui (base h)) then
    cb ∈ listeners eventName (svc (base r.1)) ∧
    cb ∈ remembered eventName r.1 ∧
    ∀ e, listeners e (svc (base (run_cleanup r.2 r.1))) =
           listeners e (svc (base h)) ∧
         remembered e (run_cleanup r.2 r.1) = remembered e h
  else r = (h, Noop) ∧ run_cleanup r.2 r.1 = h.
Proof.
  intros Hs Hf1 Hf2. unfold addEventListener.
  destruct (UseSocket.socketRef (ui (base h))) eqn:Href; [| done].
  simpl. unfold remembered in *. simpl. split_and!.
  - rewrite on_listeners, decide_True by done. apply set_add_elem. by right.
  - rewrite registry_add_lookup, decide_True by done.
    apply set_add_elem. by right.
  - intros e. split.
    + by apply off_on_listeners.
    + rewrite registry_delete_lookup, registry_add_lookup.
      case_decide; [subst e | done]. by apply set_delete_add_fresh.
Qed.

Lemma addEventListener_cleanup_witness :
  let h := {| base := UseSocket.boot; listenersRef := ∅ |} in
  is_Some (socket (svc (base h))) ∧
  (9 ∉ listeners "code-sync" (svc (base h))) ∧
  (9 ∉ remembered "code-sync" h) ∧
  9 ∈ listeners "code-sync"
        (svc (base (addEventListener "code-sync" 9 h).1)).
Proof.
  assert (Hs : is_Some (socket (svc UseSocket.boot))) by (vm_compute; eauto).
  assert (H1 : 9 ∉ listeners "code-sync" (svc UseSocket.boot))
    by (vm_compute; apply not_elem_of_nil).
  assert (H2 : 9 ∉ remembered "code-sync"
                     {| base := UseSocket.boot; listenersRef := ∅ |})
    by (vm_compute; apply not_elem_of_nil).
  cbv zeta. split_and!; [exact Hs | exact H1 | exact H2 |].
  exact (proj1 (addEventListener_cleanup
                  {| base := UseSocket.boot; listenersRef := ∅ |}
                  "code-sync" 9 Hs H1 H2)).
Defined.

(** X11.  [disconnectSocket()] of a hook that holds a socket ends in
    status ["disconnected"] with no socket in the hook or the service and
    nothing remembered; after it the hook's senders and
    [addEventListener] do nothing, and a second [disconnectSocket]
    changes nothing. *)
Theorem disconnectSocket_resets (h : hook) :
  UseSocket.socketRef (ui (base h)) = true →
  is_Some (socket (svc (base h))) →
  let h' := disconnectSocket h in
  UseSocket.connectionStatus (ui (base h')) = "disconnected" ∧
  UseSocket.socketRef (ui (base h')) = false ∧
  socket (svc (base h')) = None ∧
  eventListeners (svc (base h')) = ∅ ∧
  listenersRef h' = ∅ ∧
  disconnectSocket h' = h' ∧
  (∀ e cb, addEventListener e cb h' = (h', Noop)) ∧
  (∀ sid, UseSocket.leaveSession sid (base h') = base h') ∧
  (∀ now sid c op,
     UseSocket.sendCodeChange now sid c op (base h') = base h') ∧
  (∀ u sid, UseSocket.joinSession u sid (base h') = (false, base h')).
Proof.
  intros Href [sk Hs]. unfold disconnectSocket. rewrite Href.
  unfold disconnect. rewrite Hs. simpl.
  unfold addEventListener, UseSocket.leaveSession, UseSocket.sendCodeChange,
    UseSocket.joinSession.
  simpl. split_and!; done.
Qed.

Lemma disconnectSocket_resets_witness :
  let h := {| base := UseSocket.boot; listenersRef := ∅ |} in
  UseSocket.socketRef (ui (base h)) = true ∧
  is_Some (socket (svc (base h))) ∧
  UseSocket.connectionStatus (ui (base (disconnectSocket h))) =
    "disconnected".
Proof.
  assert (Hr : UseSocket.socketRef (ui UseSocket.boot) = true)
    by (vm_compute; reflexivity).
  assert (Hs : is_Some (socket (svc UseSocket.boot))) by (vm_compute; eauto).
  cbv zeta. split_and!; [exact Hr | exact Hs |].
  exact (proj1 (disconnectSocket_resets
                  {| base := UseSocket.boot; listenersRef := ∅ |} Hr Hs)).
Defined.

(** X12.  The join effect of [useSessionSocket] writes one
    [join-session] message when there is a session id, the hook's status
    is ["connected"], the hook holds a socket and the socket is
    connected.  With a session id and status ["connected"] but no
    connected socket it writes nothing and shows "Failed to join
    session"; in every other case it does nothing at all. *)
Theorem joinEffect_outcome (u : user) (sessionId : string)
    (w : UseSocket.World) :
  let w' := UseSocket.joinEffect (Some u) sessionId w in
  let wanted := negb (bool_decide (sessionId = ""))
                && UseSocket.hookIsConnected (ui w) in
  let able := UseSocket.socketRef (ui w) && socket_connected (svc w) in
  sent (svc w') = sent (svc w) ++
    (if wanted && able then [("join-session", PJoinSession sessionId u)]
     else []) ∧
  UseSocket.hook_toasts (ui w') = UseSocket.hook_toasts (ui w) ++
    (if wanted && negb able then ["Failed to join session"] else []) ∧
  (if wanted then True else w' = w).
Proof.
  unfold UseSocket.joinEffect.
  destruct (negb (bool_decide (sessionId = ""))
            && UseSocket.hookIsConnected (ui w)) eqn:Hw; simpl;
    [| by rewrite !app_nil_r].
  unfold UseSocket.joinSession.
  destruct (UseSocket.socketRef (ui w)) eqn:Href; simpl;
    [| by rewrite !app_nil_r].
  pose proof (joinSession_spec (svc w) sessionId u) as (Hr & Hsent & _ & Hsame).
  simpl in Hr, Hsent, Hsame.
  destruct (socket_connected (svc w)) eqn:Hc; rewrite Hr; simpl.
  - rewrite Hsent. by rewrite app_nil_r.
  - rewrite Hsame. by rewrite app_nil_r.
Qed.

End HookProps.

(** ** What a run of session events leaves behind *)

Module SessionProps.
Import SessionSocket SessionMore.

Lemma session_run_snoc evs ev st : run (evs ++ [ev]) st = listener ev (run evs st).
Proof. unfold run. by rewrite foldl_app. Qed.

(** X13.  The hook's chat log is append-only: after any run of session
    events it is the log from before followed by the chat messages of
    the run, in order of arrival; no event removes or reorders an entry. *)
Theorem chat_log_is_append_only (evs : list inbound) (st : state) :
  chatMessages (run evs st) = chatMessages st ++ chat_events evs.
Proof.
  induction evs as [| ev evs IH] using rev_ind.
  - by rewrite app_nil_r.
  - rewrite session_run_snoc. unfold chat_events in *. rewrite omap_app.
    destruct ev; simpl; rewrite IH, ?app_nil_r; try done.
    by rewrite app_assoc.
Qed.

(** X14.  The hook's document is the last one received: after any run
    of session events [codeState] is the code of the last [code-sync]
    or [code-change] of the run, whoever sent it, and the document from
    before when the run has none. *)
Theorem document_is_last_received (evs : list inbound) (st : state) :
  codeState (run evs st) = last_code (codeState st) evs.
Proof.
  induction evs as [| ev evs IH] using rev_ind; [done |].
  rewrite session_run_snoc. unfold last_code in *. rewrite foldl_app. simpl.
  rewrite <- IH. by destruct ev.
Qed.

(** X15.  A user is shown as typing exactly when the last
    [typing-status-update] about that user said so: the other events,
    and the updates about other users, do not count. *)
Theorem typing_is_last_update (evs : list inbound) (st : state)
    (U : string) :
  bool_decide (U ∈ typingUsers (run evs st)) =
  typing_after U (bool_decide (U ∈ typingUsers st)) evs.
Proof.
  induction evs as [| ev evs IH] using rev_ind; [done |].
  rewrite session_run_snoc. unfold typing_after in *. rewrite foldl_app. simpl.
  rewrite <- IH. clear IH. destruct ev; simpl; try done.
  case_decide as Hu.
  - subst U. destruct isTyping.
    + apply bool_decide_eq_true_2, elem_of_union. right.
      by apply elem_of_singleton.
    + apply bool_decide_eq_false_2.
      rewrite elem_of_difference, elem_of_singleton. tauto.
  - apply bool_decide_ext. destruct isTyping.
    + rewrite elem_of_union, elem_of_singleton. split; [| by left].
      intros [H | H]; [done | congruence].
    + rewrite elem_of_difference, elem_of_singleton. split; [tauto |].
      intros H. split; [done | congruence].
Qed.

(** X16.  Cursors are kept by connection id, last report wins, and
    nothing removes one: after any run of session events the cursor of
    a connection is the one of its last [cursor-update], or the one it
    had; a [user-left] for the connection leaves its cursor in place. *)
Theorem cursor_is_last_report (evs : list inbound) (st : state)
    (sid : string) :
  cursors (run evs st) !! sid = cursor_after sid (cursors st !! sid) evs ∧
  (is_Some (cursors st !! sid) → is_Some (cursors (run evs st) !! sid)) ∧
  ∀ u, cursors (listener (UserLeft sid u) st) = cursors st.
Proof.
  assert (H : cursors (run evs st) !! sid =
              cursor_after sid (cursors st !! sid) evs).
  { induction evs as [| ev evs IH] using rev_ind; [done |].
    rewrite session_run_snoc. unfold cursor_after in *. rewrite foldl_app. simpl.
    rewrite <- IH. clear IH. destruct ev; simpl; try done.
    case_decide as Hs.
    - subst sid. by rewrite lookup_insert_eq.
    - by rewrite lookup_insert_ne. }
  split_and!; [exact H | | done].
  rewrite H. clear H. generalize (cursors st !! sid). intros c Hc.
  revert c Hc. unfold cursor_after.
  induction evs as [| ev evs IH]; intros c Hc; simpl; [done |].
  apply IH. destruct ev; try done. by case_decide.
Qed.

Lemma cursor_is_last_report_witness :
  let st := listener (CursorUpdate "s1" "bob" (Position 1 1) "#fff") init in
  is_Some (cursors st !! "s1") ∧
  is_Some (cursors (run [UserLeft "s1" (Participant "s1" "bob" "u1" "editor")]
                        st) !! "s1").
Proof.
  assert (Hc : is_Some (cursors (listener
                 (CursorUpdate "s1" "bob" (Position 1 1) "#fff") init)
                 !! "s1")) by (vm_compute; eauto).
  cbv zeta. split; [exact Hc |].
  exact (proj1 (proj2 (cursor_is_last_report
           [UserLeft "s1" (Participant "s1" "bob" "u1" "editor")] _ "s1"))
           Hc).
Defined.

(** X17.  The execution slot shows "running" exactly when the last
    execution event of the run was [execution-started]: a start whose
    result or error never arrives leaves [isRunning] set through every
    other event. *)
Theorem running_is_last_execution_event (evs : list inbound) (st : state) :
  isRunning (executionState (run evs st)) =
  running_after (isRunning (executionState st)) evs.
Proof.
  induction evs as [| ev evs IH] using rev_ind; [done |].
  rewrite session_run_snoc. unfold running_after in *. rewrite foldl_app. simpl.
  rewrite <- IH. by destruct ev.
Qed.

End SessionProps.

(** ** More about the editor *)

Module EditorProps.
Import Client Page DocumentClaims.

Lemma onCodeChange_cases newCode operation from st :
  CodeEditor.onCodeChange newCode operation from st = st ∨
  (from ≠ "self" ∧
   is_Some (CodeEditor.editorRef st) ∧
   CodeEditor.suppressNextChangeRef st = false ∧
   CodeEditor.onCodeChange newCode operation from st =
   CodeEditor.setCode newCode (CodeEditor.set_editor (Some newCode) st)).
Proof.
  destruct (decide (from = "self")) as [-> | Hfrom]; [by left |].
  destruct (CodeEditor.editorRef st) as [old |] eqn:Hed.
  - destruct (CodeEditor.suppressNextChangeRef st) eqn:Hs.
    + left. unfold CodeEditor.onCodeChange. rewrite Hs.
      by rewrite andb_false_r.
    + right. split_and!; [done | by rewrite <- Hed; eauto | done |].
      apply onCodeChange_applies; [done | by rewrite Hed; eauto | done].
  - left. by apply onCodeChange_unmounted.
Qed.

(** What a listener of the editor's hook does with an event: nothing,
    or it writes the event's document into the editor. *)
Lemma listener_cases ev st :
  CodeEditor.listener ev st = st ∨
  ∃ newCode, written_code ev = Some newCode ∧
    CodeEditor.listener ev st =
    CodeEditor.setCode newCode (CodeEditor.set_editor (Some newCode) st).
Proof.
  destruct ev; try (by left).
  - destruct (onCodeChange_cases code "sync" "server" st)
      as [H | (_ & _ & _ & H)]; [by left | right].
    exists code. done.
  - destruct (onCodeChange_cases code operation from st)
      as [H | (Hfrom & _ & _ & H)]; [by left | right].
    exists code. split; [| done]. simpl. by rewrite decide_False.
Qed.

Lemma notifications_none st : notifications st st = [].
Proof. unfold notifications. by rewrite drop_all. Qed.











Lemma templateEffect_in_sync tpl before st :
  CodeEditor.editorRef st = Some (CodeEditor.code st) →
  CodeEditor.suppressNextChangeRef st = false →
  let st' := CodeEditor.templateEffect tpl before st in
  CodeEditor.editorRef st' = Some (CodeEditor.code st') ∧
  CodeEditor.suppressNextChangeRef st' = false.
Proof.
  intros Hed Hs. cbv zeta. rewrite templateEffect_suppress.
  split; [| done]. unfold CodeEditor.templateEffect. case_match; [| done].
  destruct (setValue_shows tpl (CodeEditor.setCode tpl st)) as [He Hc].
  - done.
  - rewrite setCode_editorRef, Hed. eauto.
  - by rewrite He, Hc.
Qed.

Lemma step_in_sync (a : action) (c : Client.t) :
  in_sync c → in_sync (step a c).
Proof.
  intros Hc. pose proof Hc as [Hed Hs]. unfold in_sync.
  destruct a as [ev | tm | v | v | | | now]; try exact Hc.
  - change (editor (step (Inbound ev) c))
      with (editor_after (CodeEditor.listener ev) c).
    unfold editor_after.
    destruct (listener_cases ev (editor c)) as [-> | (newCode & _ & ->)];
      by apply templateEffect_in_sync.
  - destruct tm; simpl; try done.
    + unfold CodeEditor.lastChangeFired. by case_match.
    + by case_match; [case_match |].
  - change (editor (step (Edit v) c))
      with (editor_after (CodeEditor.userEdit v) c).
    unfold editor_after.
    destruct (setValue_shows v (editor c) Hs) as [He Hcode];
      [rewrite Hed; eauto |].
    apply templateEffect_in_sync.
    + unfold CodeEditor.userEdit. by rewrite He, Hcode.
    + unfold CodeEditor.userEdit. by rewrite setValue_suppress.
  - cbn [step]. by rewrite Hed.
Qed.

(** X21.  The editor's [code] state never drifts from the editor's
    text: from the mounted page on, after any course of events, edits
    and timers, [code] is the text of the editor and the guard is clear. *)
Theorem code_state_tracks_editor (sid template : string)
    (acts : list action) :
  in_sync (run acts (start sid template)).
Proof.
  assert (H0 : in_sync (start sid template)).
  { unfold in_sync.
    change (editor (start sid template))
      with (CodeEditor.templateEffect template
              (CodeEditor.init sid false true)
              (CodeEditor.mount template (CodeEditor.init sid false true))).
    destruct (mount_shows template (CodeEditor.init sid false true) eq_refl)
      as [He Hc].
    apply templateEffect_in_sync.
    - by rewrite He, Hc.
    - by rewrite mount_suppress. }
  revert H0. generalize (start sid template).
  induction acts as [| a acts IH]; intros c Hc; [done |].
  simpl. apply IH. by apply step_in_sync.
Qed.

End EditorProps.

(** ** [hashCode] *)

Module HashProps.
Import HashCode.
Local Open Scope Z_scope.

Lemma to_int32_range z : - 2 ^ 31 ≤ to_int32 z < 2 ^ 31.
Proof.
  unfold to_int32.
  pose proof (Z.mod_pos_bound (z + 2 ^ 31) (2 ^ 32) ltac:(lia)). lia.
Qed.

Lemma to_int32_shift z k : to_int32 (z + k * 2 ^ 32) = to_int32 z.
Proof.
  unfold to_int32.
  replace (z + k * 2 ^ 32 + 2 ^ 31) with (z + 2 ^ 31 + k * 2 ^ 32) by lia.
  by rewrite Z_mod_plus_full.
Qed.

Lemma to_int32_multiple z : ∃ k, to_int32 z = z + k * 2 ^ 32.
Proof.
  exists (- ((z + 2 ^ 31) / 2 ^ 32)). unfold to_int32.
  pose proof (Z.div_mod (z + 2 ^ 31) (2 ^ 32) ltac:(lia)). lia.
Qed.

Lemma to_int32_id z : - 2 ^ 31 ≤ z < 2 ^ 31 → to_int32 z = z.
Proof.
  intros Hz. unfold to_int32. rewrite Z.mod_small by lia. lia.
Qed.

(** One turn of the loop multiplies by 31 and adds the code unit,
    modulo 2^32. *)
Lemma hash_step_poly (p c : Z) :
  hash_step (to_int32 p) c = to_int32 (31 * p + c).
Proof.
  unfold hash_step, and_self, shl5. rewrite Z.shiftl_mul_pow2 by lia.
  destruct (to_int32_multiple p) as [k1 Hk1].
  destruct (to_int32_multiple (to_int32 p)) as [k2 Hk2].
  destruct (to_int32_multiple (to_int32 (to_int32 p) * 2 ^ 5)) as [k3 Hk3].
  rewrite Hk3, Hk2, Hk1.
  replace ((p + k1 * 2 ^ 32 + k2 * 2 ^ 32) * 2 ^ 5 + k3 * 2 ^ 32
           - (p + k1 * 2 ^ 32) + c)
    with (31 * p + c + (32 * k1 + 32 * k2 + k3 - k1) * 2 ^ 32) by lia.
  apply to_int32_shift.
Qed.

Lemma hashCode_from (s : list Z) (p : Z) :
  foldl hash_step (to_int32 p) s =
  to_int32 (foldl (λ h c, 31 * h + c) p s).
Proof.
  revert p. induction s as [| c s IH]; intros p; simpl; [done |].
  rewrite hash_step_poly. apply IH.
Qed.

(** X22.  [hashCode] is Java's string hash: the polynomial
    [s[0]*31^(n-1) + ... + s[n-1]] of the code units, reduced to a
    signed 32-bit integer; it is 0 for the empty string, and the colour
    class [Math.abs(hash) % 6 + 1] derived from it always lies between 1
    and 6. *)
Theorem hashCode_is_poly31 (s : list Z) :
  hashCode s = to_int32 (poly31 s) ∧
  - 2 ^ 31 ≤ hashCode s < 2 ^ 31 ∧
  hashCode [] = 0 ∧
  1 ≤ colour_class s ≤ 6.
Proof.
  assert (H : hashCode s = to_int32 (poly31 s)).
  { unfold hashCode, poly31. rewrite <- hashCode_from. done. }
  split_and!.
  - exact H.
  - rewrite H. apply to_int32_range.
  - rewrite H. apply to_int32_range.
  - done.
  - unfold colour_class.
    pose proof (Z.rem_bound_pos (Z.abs (hashCode s)) 6 ltac:(lia) ltac:(lia)).
    lia.
  - unfold colour_class.
    pose proof (Z.rem_bound_pos (Z.abs (hashCode s)) 6 ltac:(lia) ltac:(lia)).
    lia.
Qed.

(** ["ab"] hashes to 97*31 + 98, and a long name wraps around. *)
Example hashCode_samples :
  hashCode [97; 98] = 3105 ∧
  hashCode [122; 122; 122; 122; 122; 122; 122] = 215481018 ∧
  colour_class [122; 122; 122; 122; 122; 122; 122] = 1.
Proof. vm_compute. done. Qed.

End HashProps.

(** ** More about the chat window *)

Module ChatProps.
Import ChatClaims.

Lemma known_after_effect (messages : list chat_message)
    (st : ChatWindow.state) (m : chat_message) :
  m ∈ messages →
  ChatWindow.known
    (ChatWindow.messageHistory (ChatWindow.historyEffect messages st)) m =
  true.
Proof.
  intros Hin. unfold ChatWindow.historyEffect.
  rewrite bool_decide_eq_true_2
    by (destruct messages; [by apply elem_of_nil in Hin | simpl; lia]).
  destruct (ChatWindow.known (ChatWindow.messageHistory st) m) eqn:Hk.
  - case_bool_decide; simpl; [by apply known_app_l | done].
  - assert (Hnew : m ∈ filter
              (λ msg, ChatWindow.known (ChatWindow.messageHistory st) msg
                      = false) messages)
      by (by apply list_elem_of_filter).
    rewrite bool_decide_eq_true_2
      by (destruct (filter _ messages);
          [by apply elem_of_nil in Hnew | simpl; lia]).
    simpl. apply known_spec. rewrite fmap_app, elem_of_app. right.
    apply list_elem_of_fmap. eauto.
Qed.

Lemma effect_fixpoint (messages : list chat_message) (st : ChatWindow.state) :
  ChatWindow.historyEffect messages (ChatWindow.historyEffect messages st) =
  ChatWindow.historyEffect messages st.
Proof.
  set (st1 := ChatWindow.historyEffect messages st).
  unfold ChatWindow.historyEffect at 1.
  case_bool_decide; [| done].
  rewrite filter_known_nil; [done |].
  apply Forall_forall. intros m Hm. by apply known_after_effect.
Qed.

(** X23.  The history effect settles after one run: run again with the
    same [messages] it changes nothing, so the re-run that its own
    update of [messageHistory] triggers ends the cycle.  After a run
    every message of [messages] has its id in the history, and the
    history from before is kept as a prefix. *)
Theorem history_effect_settles (messages : list chat_message)
    (st : ChatWindow.state) :
  let st1 := ChatWindow.historyEffect messages st in
  ChatWindow.historyEffect messages st1 = st1 ∧
  (∀ m, m ∈ messages →
        msg_id m ∈ msg_id <$> ChatWindow.messageHistory st1) ∧
  ChatWindow.messageHistory st `prefix_of` ChatWindow.messageHistory st1 ∧
  ChatWindow.historyEffect [] st = st.
Proof.
  cbv zeta. split_and!.
  - apply effect_fixpoint.
  - intros m Hm. apply known_spec. by apply known_after_effect.
  - unfold ChatWindow.historyEffect. repeat case_bool_decide; simpl;
      try done. by apply prefix_app_r.
  - done.
Qed.

Lemma filter_length_pos {A} (P : A → Prop) `{∀ x, Decision (P x)}
    (l : list A) (x : A) :
  x ∈ l → P x → (1 ≤ length (filter P l))%nat.
Proof.
  intros Hin HP.
  assert (Hf : x ∈ filter P l) by (by apply list_elem_of_filter).
  destruct (filter P l); [by apply elem_of_nil in Hf | simpl; lia].
Qed.

Lemma history_effect_settles_witness :
  Stated.msg 2 ∈ [Stated.msg 1; Stated.msg 2; Stated.msg 2] ∧
  msg_id (Stated.msg 2) ∈
    msg_id <$> ChatWindow.messageHistory
                 (ChatWindow.historyEffect
                    [Stated.msg 1; Stated.msg 2; Stated.msg 2]
                    ChatWindow.init).
Proof.
  assert (Hm : Stated.msg 2 ∈ [Stated.msg 1; Stated.msg 2; Stated.msg 2]).
  { apply elem_of_cons. right. apply elem_of_cons. by left. }
  split; [exact Hm |].
  exact (proj1 (proj2 (history_effect_settles
           [Stated.msg 1; Stated.msg 2; Stated.msg 2] ChatWindow.init))
           _ Hm).
Defined.

(** X24.  The window renders every message at least twice: once the
    history effect has run, the list [[...messageHistory, ...messages]]
    holds, for each message of the [messages] prop, an entry of the
    history with its id and the message itself, so at least two entries
    carry that id (the sort by timestamp that follows reorders the list
    and drops nothing). *)
Theorem rendered_list_repeats (messages : list chat_message)
    (st : ChatWindow.state) (m : chat_message) :
  m ∈ messages →
  let st1 := ChatWindow.historyEffect messages st in
  (2 ≤ length (filter (λ x, msg_id x = msg_id m)
                 (ChatWindow.allMessages messages st1)))%nat.
Proof.
  intros Hm. cbv zeta. unfold ChatWindow.allMessages.
  rewrite filter_app, length_app.
  assert (Hk : msg_id m ∈ msg_id <$>
                 ChatWindow.messageHistory
                   (ChatWindow.historyEffect messages st))
    by (apply known_spec; by apply known_after_effect).
  apply list_elem_of_fmap in Hk as (x & Hid & Hx).
  pose proof (filter_length_pos (λ y, msg_id y = msg_id m) _ x Hx
                (eq_sym Hid)).
  pose proof (filter_length_pos (λ y, msg_id y = msg_id m) _ m Hm eq_refl).
  lia.
Qed.

Lemma rendered_list_repeats_witness :
  Stated.msg 1 ∈ [Stated.msg 1] ∧
  (2 ≤ length (filter (λ x, msg_id x = msg_id (Stated.msg 1))
                 (ChatWindow.allMessages [Stated.msg 1]
                    (ChatWindow.historyEffect [Stated.msg 1]
                       ChatWindow.init))))%nat.
Proof.
  assert (Hm : Stated.msg 1 ∈ [Stated.msg 1])
    by (apply list_elem_of_singleton; reflexivity).
  split; [exact Hm |].
  exact (rendered_list_repeats [Stated.msg 1] ChatWindow.init _ Hm).
Defined.

End ChatProps.

(** ** The history of the execution panel *)

Module PanelProps.
Import ExecutionPanel.

Lemma historyEffect_length now input p history :
  (length history ≤ 20)%nat →
  (length (historyEffect now input p history) ≤ 20)%nat.
Proof.
  intros H. unfold historyEffect. case_match; [| done].
  simpl. rewrite length_take. lia.
Qed.

(** X25.  The panel keeps at most 20 executions: starting empty, after
    any series of renders the history holds no more than 20 entries.  A
    render adds an entry, at the front, only when there is a result to
    show and nothing is running; the 19 newest entries from before
    follow it in their order. *)
Theorem panel_history_bounded (rs : list (Z * string * props)) :
  (length (renders rs []) ≤ 20)%nat ∧
  ∀ now input p history,
    let h' := historyEffect now input p history in
    if truthy (currentResult p) && negb (isExecuting p)
    then tail h' = take 19 history ∧
         e_result <$> head h' = Some (currentResult p) ∧
         e_id <$> head h' = Some now
    else h' = history.
Proof.
  split.
  - assert (H : ∀ h, (length h ≤ 20)%nat → (length (renders rs h) ≤ 20)%nat).
    { induction rs as [| r rs IH]; intros h Hh; [done |].
      simpl. apply IH. by apply historyEffect_length. }
    apply H. simpl. lia.
  - intros now input p history. unfold historyEffect. by case_match.
Qed.

End PanelProps.
